(** * Windows-Use: the human-in-the-loop approval gateway

    A shallow embedding of [windows_use/agent/hitl/views.py],
    [windows_use/agent/hitl/service.py] and of [Registry.execute] in
    [windows_use/agent/registry/service.py].

    Python sets of tool names are [gset string], the [risk_hierarchy]
    dictionary is a [gmap string Z], and code that prints, prompts, posts to a
    webhook or raises runs in a small state-and-exception monad over an
    explicit [World]. *)

From stdpp Require Import base decidable option list strings gmap pretty.
From Stdlib Require Import ZArith Ascii String Lia.

#[local] Open Scope string_scope.
#[local] Open Scope Z_scope.
#[local] Open Scope list_scope.
#[local] Set Warnings "-clear-no-such-hyp".

(** ** views.py *)

Module Views.

(** [class ApprovalResult(str, Enum)] *)
Inductive ApprovalResult : Type :=
| APPROVED
| REJECTED
| TIMEOUT.

(** [class ApprovalBackend(str, Enum)] *)
Inductive ApprovalBackend : Type :=
| CLI
| SLACK
| WEBHOOK
| AUTO_APPROVE.

#[export] Instance ApprovalResult_eq_dec : EqDecision ApprovalResult.
Proof. solve_decision. Defined.

#[export] Instance ApprovalBackend_eq_dec : EqDecision ApprovalBackend.
Proof. solve_decision. Defined.

(** A Python [dict] keeps insertion order, which [items()] follows. *)
Definition Parameters : Type := list (string * string).

(** [class ApprovalRequest(BaseModel)] *)
Record ApprovalRequest : Type := mkApprovalRequest {
  tool_name : string;
  tool_description : string;
  parameters : Parameters;
  step_number : Z;
  context : string;
  risk_level : string;
}.

(** [class ApprovalResponse(BaseModel)]; the timestamp is the reading of the
    clock, kept as an integer count of clock ticks. *)
Record ApprovalResponse : Type := mkApprovalResponse {
  result : ApprovalResult;
  message : string;
  approved_by : string;
  timestamp : Z;
}.

End Views.

Export Views.

(** ** service.py: risk classification *)

Definition CRITICAL_RISK_TOOLS : gset string :=
  {[ "shell_tool" ]}.

Definition HIGH_RISK_TOOLS : gset string :=
  {[ "app_tool"; "memory_tool" ]}.

Definition MEDIUM_RISK_TOOLS : gset string :=
  {[ "type_tool"; "click_tool"; "drag_tool"; "shortcut_tool"; "multi_edit_tool" ]}.

Definition LOW_RISK_TOOLS : gset string :=
  {[ "scroll_tool"; "move_tool"; "wait_tool"; "scrape_tool"; "done_tool" ]}.

(** Python's [x in s] on a set. *)
Definition py_in (x : string) (s : gset string) : bool := bool_decide (x ∈ s).

(** The [if / elif / elif / else] chain of [get_tool_risk_level], over any
    three sets. *)
Definition risk_level_in (critical high medium : gset string) (name : string) : string :=
  if py_in name critical then "critical"
  else if py_in name high then "high"
  else if py_in name medium then "medium"
  else "low".

Definition get_tool_risk_level (tool_name : string) : string :=
  risk_level_in CRITICAL_RISK_TOOLS HIGH_RISK_TOOLS MEDIUM_RISK_TOOLS tool_name.

(** ** service.py: the approval policy *)

Definition risk_hierarchy : gmap string Z :=
  list_to_map [("critical", 4); ("high", 3); ("medium", 2); ("low", 1)].

(** [d.get(key, default)] *)
Definition dict_get (d : gmap string Z) (key : string) (dflt : Z) : Z :=
  default dflt (d !! key).

(** The order [low < medium < high < critical] of the specification. *)
Inductive RiskTier : Type :=
| Low
| Medium
| High
| Critical.

Definition tier_name (t : RiskTier) : string :=
  match t with
  | Low => "low"
  | Medium => "medium"
  | High => "high"
  | Critical => "critical"
  end.

Definition rank (t : RiskTier) : Z :=
  match t with
  | Low => 1
  | Medium => 2
  | High => 3
  | Critical => 4
  end.

(** ** Python exceptions *)

Module Py.

(** The exception classes the modelled code can meet.  [KeyboardInterrupt]
    and [SystemExit] derive from [BaseException] only; every other class
    derives from [Exception]. *)
Inductive Exc : Type :=
| KeyboardInterrupt
| SystemExit
| EOFError
| ImportError
| RecursionError
| ValueError (msg : string)
| AttributeError (msg : string)
| ConnectionError (msg : string)
| HTTPError (status : Z)
| ValidationError (msg : string)
| RuntimeError (msg : string).

(** [isinstance(e, Exception)]: what [except Exception] catches. *)
Definition is_Exception (e : Exc) : bool :=
  match e with
  | KeyboardInterrupt | SystemExit => false
  | _ => true
  end.

(** [str(e)]; for an HTTP error the status code stands for its text. *)
Definition str (e : Exc) : string :=
  match e with
  | KeyboardInterrupt | SystemExit | EOFError | ImportError | RecursionError => ""
  | ValueError m | AttributeError m | ConnectionError m
  | ValidationError m | RuntimeError m => m
  | HTTPError status => pretty status
  end.

(** A call either returns a value or raises. *)
Inductive Result (A : Type) : Type :=
| Return (a : A)
| Raise (e : Exc).

Arguments Return {A} a.
Arguments Raise {A} e.

(** Truthiness of an optional string: [None] and [""] are falsy. *)
Definition truthy (o : option string) : bool :=
  match o with
  | Some s => negb (String.eqb s "")
  | None => false
  end.

(** The white space that [str.strip()] removes, in the UTF-8 bytes of the
    string.  One byte: U+0009 to U+000D, U+001C to U+001F and U+0020. *)
Definition is_space (c : ascii) : bool :=
  let n := nat_of_ascii c in
  ((9 <=? n) && (n <=? 13) || (28 <=? n) && (n <=? 32))%nat.

(** Two bytes: U+0085 and U+00A0. *)
Definition is_space2 (c1 c2 : ascii) : bool :=
  let a := nat_of_ascii c1 in
  let b := nat_of_ascii c2 in
  ((a =? 194) && ((b =? 133) || (b =? 160)))%nat.

(** Three bytes: U+1680, U+2000 to U+200A, U+2028, U+2029, U+202F, U+205F and
    U+3000. *)
Definition is_space3 (c1 c2 c3 : ascii) : bool :=
  let a := nat_of_ascii c1 in
  let b := nat_of_ascii c2 in
  let c := nat_of_ascii c3 in
  ((a =? 225) && (b =? 154) && (c =? 128)
   || (a =? 226) && (b =? 128)
      && ((128 <=? c) && (c <=? 138) || (c =? 168) || (c =? 169) || (c =? 175))
   || (a =? 226) && (b =? 129) && (c =? 159)
   || (a =? 227) && (b =? 128) && (c =? 128))%nat.

Fixpoint lstrip (s : string) : string :=
  match s with
  | String c1 s1 =>
      if is_space c1 then lstrip s1
      else
        match s1 with
        | String c2 s2 =>
            if is_space2 c1 c2 then lstrip s2
            else
              match s2 with
              | String c3 s3 => if is_space3 c1 c2 c3 then lstrip s3 else s
              | EmptyString => s
              end
        | EmptyString => s
        end
  | EmptyString => EmptyString
  end.

Definition reverse (s : string) : string :=
  string_of_list_ascii (rev (list_ascii_of_string s)).

(** [lstrip] on the reversed string: the bytes of a character come last
    first. *)
Fixpoint lstrip_reversed (s : string) : string :=
  match s with
  | String c1 s1 =>
      if is_space c1 then lstrip_reversed s1
      else
        match s1 with
        | String c2 s2 =>
            if is_space2 c2 c1 then lstrip_reversed s2
            else
              match s2 with
              | String c3 s3 => if is_space3 c3 c2 c1 then lstrip_reversed s3 else s
              | EmptyString => s
              end
        | EmptyString => s
        end
  | EmptyString => EmptyString
  end.

Definition rstrip (s : string) : string := reverse (lstrip_reversed (reverse s)).

(** [s.strip()] *)
Definition strip (s : string) : string := rstrip (lstrip s).

(** A byte that continues a character of several bytes. *)
Definition is_continuation (c : ascii) : bool :=
  let n := nat_of_ascii c in
  ((128 <=? n) && (n <? 192))%nat.

(** [len(s)]: the characters of the string, one for each byte that does not
    continue another. *)
Fixpoint len (s : string) : nat :=
  match s with
  | String c s' => if is_continuation c then len s' else S (len s')
  | EmptyString => O
  end.

(** [s[:n]]: the first [n] characters, each with the bytes that continue it. *)
Fixpoint take (n : nat) (s : string) : string :=
  match s with
  | String c s' =>
      if is_continuation c then String c (take n s')
      else
        match n with
        | S k => String c (take k s')
        | O => EmptyString
        end
  | EmptyString => EmptyString
  end.

Definition lower_ascii (c : ascii) : ascii :=
  let n := nat_of_ascii c in
  if ((65 <=? n) && (n <=? 90))%nat then ascii_of_nat (n + 32) else c.

Definition upper_ascii (c : ascii) : ascii :=
  let n := nat_of_ascii c in
  if ((97 <=? n) && (n <=? 122))%nat then ascii_of_nat (n - 32) else c.

Fixpoint map_string (f : ascii → ascii) (s : string) : string :=
  match s with
  | String c s' => String (f c) (map_string f s')
  | EmptyString => EmptyString
  end.

(** [s.lower()] and [s.upper()] on ASCII letters. *)
Definition lower (s : string) : string := map_string lower_ascii s.
Definition upper (s : string) : string := map_string upper_ascii s.


End Py.

(** ** The world the approval code runs in *)

(** What the operator does at one read of the terminal. *)
Inductive OperatorEvent : Type :=
| Typed (line : string)
| CtrlC
| EndOfInput.

Inductive LogLevel : Type :=
| DEBUG
| INFO
| WARNING
| ERROR.

(** A value interpolated into a log line. *)
Inductive LogArg : Type :=
| AStr (s : string)
| AExc (e : Py.Exc)
| AResult (r : ApprovalResult)
| ABackend (b : ApprovalBackend).

(** One block of the Slack message, in the order the code appends them. *)
Inductive SlackBlock : Type :=
| Header (step : Z)
| ToolAndRisk (tool emoji risk : string)
| DescriptionBlock (description : string)
| ParametersBlock (params : Parameters)
| ContextBlock (context : string)
| ActionButtons (values : list string).

Record SlackMessage : Type := mkSlackMessage {
  text_emoji : string;
  text_step : Z;
  blocks : list SlackBlock;
}.

(** What [console.print] shows. *)
Inductive Printed : Type :=
| ApprovalPanel (tool description color level : string) (step : Z)
    (shown : Parameters) (ctx : option string)
| FullParametersTitle
| FullParameters (params : Parameters)
| WaitingForSlack
| SlackNotificationSent.

(** The calls the code makes, in the order it makes them. *)
Inductive Event : Type :=
| Log (level : LogLevel) (template : string) (args : list LogArg)
| ConsolePrint (what : Printed)
| PromptAsk (choices : list string) (dflt : string)
| TimeTime
| RequestsPost (url : string) (msg : SlackMessage) (timeout : Z)
| GetToolRiskLevel (tool : string)
| RequiresApproval (tool level : string)
| CustomApproverCall (request : ApprovalRequest)
| ApproverRequestApproval (request : ApprovalRequest)
| ModelValidate (tool : string) (kwargs : Parameters)
| ToolInvoke (tool : string) (args : Parameters).

(** The surroundings: the operator at the terminal, the clock, whether
    [import requests] succeeds, and how the webhook endpoint answers a post
    (a status code, or the exception the transport raises).  The clock is only
    read; how far it advances between two readings is left out. *)
Record World : Type := mkWorld {
  operator : list OperatorEvent;
  clock : Z;
  requests_importable : bool;
  http_post : string → SlackMessage → Py.Result Z;
}.

(** A computation reads and changes the world, emits the events of the calls
    it makes, and returns or raises. *)
Definition M (A : Type) : Type := World → Py.Result A * World * list Event.

Definition ret {A} (a : A) : M A := λ w, (Py.Return a, w, []).

Definition raise {A} (e : Py.Exc) : M A := λ w, (Py.Raise e, w, []).

Definition bind {A B} (c : M A) (k : A → M B) : M B :=
  λ w,
    match c w with
    | (Py.Return a, w1, evs1) =>
        match k a w1 with
        | (r, w2, evs2) => (r, w2, (evs1 ++ evs2)%list)
        end
    | (Py.Raise e, w1, evs1) => (Py.Raise e, w1, evs1)
    end.

(** [try: body  except <classes>: handler] *)
Definition try_except {A} (body : M A) (catches : Py.Exc → bool)
    (handler : Py.Exc → M A) : M A :=
  λ w,
    match body w with
    | (Py.Return a, w1, evs1) => (Py.Return a, w1, evs1)
    | (Py.Raise e, w1, evs1) =>
        if catches e then
          match handler e w1 with
          | (r, w2, evs2) => (r, w2, (evs1 ++ evs2)%list)
          end
        else (Py.Raise e, w1, evs1)
    end.

Definition emit (ev : Event) : M unit := λ w, (Py.Return tt, w, [ev]).

#[export] Instance M_ret : MRet M := @ret.
#[export] Instance M_bind : MBind M := λ A B k c, bind c k.

Definition logger (level : LogLevel) (template : string) (args : list LogArg) : M unit :=
  emit (Log level template args).

(** [console.print(...)]: the renderable is taken to be printed; rich's own
    failures on a text it cannot render are left out. *)
Definition console_print (what : Printed) : M unit := emit (ConsolePrint what).

(** [time.time()] *)
Definition time_time : M Z := λ w, (Py.Return (clock w), w, [TimeTime]).

(** ** rich's [Prompt.ask] *)

(** The prompt of the [rich] library, as its documentation gives it: a line
    that is exactly empty answers the default; any other line is stripped and
    must be one of the choices, otherwise the prompt is shown again.  Ctrl-C
    raises [KeyboardInterrupt]; the end of the input raises [EOFError]. *)
Fixpoint prompt_loop (choices : list string) (dflt : string)
    (inputs : list OperatorEvent) : Py.Result string * list OperatorEvent :=
  match inputs with
  | [] => (Py.Raise Py.EOFError, [])
  | CtrlC :: rest => (Py.Raise Py.KeyboardInterrupt, rest)
  | EndOfInput :: rest => (Py.Raise Py.EOFError, rest)
  | Typed value :: rest =>
      if String.eqb value "" then (Py.Return dflt, rest)
      else if bool_decide (Py.strip value ∈ choices) then (Py.Return (Py.strip value), rest)
      else prompt_loop choices dflt rest
  end.

(** The world once the operator's events up to [rest] have been read. *)
Definition set_operator (w : World) (rest : list OperatorEvent) : World :=
  {| operator := rest; clock := clock w;
     requests_importable := requests_importable w; http_post := http_post w |}.

Definition Prompt_ask (choices : list string) (dflt : string) : M string :=
  λ w,
    let '(r, rest) := prompt_loop choices dflt (operator w) in
    (r, set_operator w rest, [PromptAsk choices dflt]).

(** ** service.py: the Interactive-Prompt backend *)

Module CLIApprovalBackend.

Record t : Type := mk { timeout : Z }.

(** [CLIApprovalBackend()] *)
Definition __init__ : t := {| timeout := 60 |}.

(** [risk_colors.get(level, "white")] *)
Definition risk_color (level : string) : string :=
  if String.eqb level "critical" then "red bold"
  else if String.eqb level "high" then "red"
  else if String.eqb level "medium" then "yellow"
  else if String.eqb level "low" then "green"
  else "white".

(** Values longer than 100 characters are cut and end in ["..."]. *)
Definition truncate (value_str : string) : string :=
  if (100 <? Py.len value_str)%nat
  then Py.take 100 value_str +:+ "..."
  else value_str.

Definition panel (request : ApprovalRequest) : Printed :=
  ApprovalPanel
    (tool_name request) (tool_description request)
    (risk_color (risk_level request)) (Py.upper (risk_level request))
    (step_number request)
    (map (λ kv, (kv.1, truncate kv.2)) (parameters request))
    (if String.eqb (context request) "" then None else Some (context request)).

Definition interrupted (e : Py.Exc) : bool :=
  match e with
  | Py.KeyboardInterrupt | Py.EOFError => true
  | _ => false
  end.

(** The three answers of the backend, stamped with the reading of the clock. *)
Definition approved_via_cli (now : Z) : ApprovalResponse :=
  {| result := APPROVED; message := "Approved via CLI";
     approved_by := "human"; timestamp := now |}.

Definition rejected_via_cli (now : Z) : ApprovalResponse :=
  {| result := REJECTED; message := "Rejected via CLI";
     approved_by := "human"; timestamp := now |}.

Definition interrupted_by_user (now : Z) : ApprovalResponse :=
  {| result := REJECTED; message := "Interrupted by user";
     approved_by := "human"; timestamp := now |}.

(** [request_approval], with a bound on the depth of its recursion. *)
Fixpoint request_approval_depth (depth : nat) (self : t) (request : ApprovalRequest)
    : M ApprovalResponse :=
  match depth with
  | O => raise Py.RecursionError
  | S depth' =>
      console_print (panel request) ;;
      try_except
        (choice ← Prompt_ask ["y"; "n"; "d"] "y";
         if String.eqb (Py.lower choice) "y" then
           now ← time_time;
           mret (approved_via_cli now)
         else if String.eqb (Py.lower choice) "d" then
           console_print FullParametersTitle ;;
           console_print (FullParameters (parameters request)) ;;
           request_approval_depth depth' self request
         else
           now ← time_time;
           mret (rejected_via_cli now))
        interrupted
        (λ _,
           logger WARNING "Approval interrupted by user" [] ;;
           now ← time_time;
           mret (interrupted_by_user now))
  end.

(** Every prompt reads at least one event of the operator, so the recursion
    is no deeper than the events left plus one.  The interpreter's own limit on
    the depth of the recursion is left out. *)
Definition request_approval (self : t) (request : ApprovalRequest) : M ApprovalResponse :=
  λ w, request_approval_depth (S (List.length (operator w))) self request w.

End CLIApprovalBackend.

(** ** service.py: the Webhook-Notify backend *)

Module SlackApprovalBackend.

Record t : Type := mk {
  webhook_url : string;
  slack_token : option string;
  timeout : Z;
}.

(** [SlackApprovalBackend(webhook_url, slack_token)] *)
Definition __init__ (webhook_url : string) (slack_token : option string) : t :=
  {| webhook_url := webhook_url; slack_token := slack_token; timeout := 300 |}.

(** [risk_emojis.get(level, ":white_circle:")] *)
Definition risk_emoji (level : string) : string :=
  if String.eqb level "critical" then ":red_circle:"
  else if String.eqb level "high" then ":orange_circle:"
  else if String.eqb level "medium" then ":yellow_circle:"
  else if String.eqb level "low" then ":green_circle:"
  else ":white_circle:".

Definition slack_message (self : t) (request : ApprovalRequest) : SlackMessage :=
  {| text_emoji := risk_emoji (risk_level request);
     text_step := step_number request;
     blocks :=
       [ Header (step_number request);
         ToolAndRisk (tool_name request) (risk_emoji (risk_level request))
           (Py.upper (risk_level request));
         DescriptionBlock (tool_description request);
         ParametersBlock (parameters request) ]
       ++ (if String.eqb (context request) "" then [] else [ContextBlock (context request)])
       ++ (if Py.truthy (slack_token self) then [ActionButtons ["approve"; "reject"]] else [])
  |}%list.

(** [import requests] *)
Definition import_requests : M unit :=
  λ w, if requests_importable w then (Py.Return tt, w, []) else (Py.Raise Py.ImportError, w, []).

(** [requests.post(url, json=msg, timeout=timeout)]; the value is the status
    code of the response. *)
Definition requests_post (url : string) (msg : SlackMessage) (timeout : Z) : M Z :=
  λ w, (http_post w url msg, w, [RequestsPost url msg timeout]).

(** [response.raise_for_status()] *)
Definition raise_for_status (status : Z) : M unit :=
  if bool_decide (400 ≤ status < 600) then raise (Py.HTTPError status) else mret tt.

(** What the backend does about the notification before it turns to the
    terminal: the post, and what it logs and prints about its outcome. *)
Definition notice (self : t) (request : ApprovalRequest) (w : World) : list Event :=
  RequestsPost (webhook_url self) (slack_message self request) 10 ::
  match http_post w (webhook_url self) (slack_message self request) with
  | Py.Return status =>
      if bool_decide (400 ≤ status < 600) then
        [Log ERROR "Failed to send Slack message: {e}" [AExc (Py.HTTPError status)]]
      else
        Log INFO "Approval request sent to Slack" [] ::
        if Py.truthy (slack_token self) then
          [ConsolePrint WaitingForSlack;
           Log WARNING
             "Interactive Slack approval not yet implemented, falling back to CLI" []]
        else [ConsolePrint SlackNotificationSent]
  | Py.Raise e => [Log ERROR "Failed to send Slack message: {e}" [AExc e]]
  end.

(** The answer when [requests] cannot be imported. *)
Definition not_available (now : Z) : ApprovalResponse :=
  {| result := REJECTED; message := "Slack integration not available";
     approved_by := "system"; timestamp := now |}.

Definition is_ImportError (e : Py.Exc) : bool :=
  match e with
  | Py.ImportError => true
  | _ => false
  end.

Definition request_approval (self : t) (request : ApprovalRequest) : M ApprovalResponse :=
  unavailable ←
    try_except
      (import_requests ;; mret None)
      is_ImportError
      (λ _,
         logger ERROR "requests library required for Slack integration" [] ;;
         now ← time_time;
         mret (Some (not_available now)));
  match unavailable with
  | Some response => mret response
  | None =>
      try_except
        (status ← requests_post (webhook_url self) (slack_message self request) 10;
         raise_for_status status ;;
         logger INFO "Approval request sent to Slack" [] ;;
         if Py.truthy (slack_token self) then
           console_print WaitingForSlack ;;
           logger WARNING
             "Interactive Slack approval not yet implemented, falling back to CLI" [] ;;
           CLIApprovalBackend.request_approval CLIApprovalBackend.__init__ request
         else
           console_print SlackNotificationSent ;;
           CLIApprovalBackend.request_approval CLIApprovalBackend.__init__ request)
        Py.is_Exception
        (λ e,
           logger ERROR "Failed to send Slack message: {e}" [AExc e] ;;
           CLIApprovalBackend.request_approval CLIApprovalBackend.__init__ request)
  end.

End SlackApprovalBackend.

(** ** service.py: the gateway *)

Module HITLApprovalService.

(** What [self.approver] holds when it is not [None]. *)
Inductive Approver : Type :=
| CLIApprover (b : CLIApprovalBackend.t)
| SlackApprover (b : SlackApprovalBackend.t).

Record t : Type := mk {
  backend : ApprovalBackend;
  require_approval_for : option (gset string);
  min_risk_level : string;
  custom_approver : option (ApprovalRequest → M ApprovalResponse);
  approver : option Approver;
}.

Definition __init__ (backend : ApprovalBackend)
    (require_approval_for : option (gset string)) (min_risk_level : string)
    (slack_webhook_url slack_token : option string)
    (custom_approver : option (ApprovalRequest → M ApprovalResponse)) : M t :=
  approver ←
    match backend with
    | CLI => mret (Some (CLIApprover CLIApprovalBackend.__init__))
    | SLACK =>
        if negb (Py.truthy slack_webhook_url)
        then raise (Py.ValueError "slack_webhook_url required for Slack backend")
        else mret (Some (SlackApprover
                           (SlackApprovalBackend.__init__ (default "" slack_webhook_url)
                              slack_token)))
    | AUTO_APPROVE => mret None
    | WEBHOOK => mret (Some (CLIApprover CLIApprovalBackend.__init__))
    end;
  logger INFO "HITL approval service initialized with backend: {backend}"
    [ABackend backend] ;;
  mret {| backend := backend; require_approval_for := require_approval_for;
          min_risk_level := min_risk_level; custom_approver := custom_approver;
          approver := approver |}.

Definition requires_approval (self : t) (tool_name risk_level : string) : bool :=
  match require_approval_for self with
  | Some required => py_in tool_name required
  | None =>
      let min_level := dict_get risk_hierarchy (min_risk_level self) 3 in
      let tool_level := dict_get risk_hierarchy risk_level 2 in
      bool_decide (tool_level >= min_level)
  end.

(** [self.approver.request_approval(request)] *)
Definition approver_request_approval (a : option Approver) (request : ApprovalRequest)
    : M ApprovalResponse :=
  match a with
  | Some (CLIApprover b) => CLIApprovalBackend.request_approval b request
  | Some (SlackApprover b) => SlackApprovalBackend.request_approval b request
  | None => raise (Py.AttributeError "'NoneType' object has no attribute 'request_approval'")
  end.

(** The end of [request_approval], from the comment "Request approval via
    backend" on. *)
Definition request_via_backend (self : t) (request : ApprovalRequest) : M ApprovalResponse :=
  logger INFO "Requesting approval for {tool_name} (risk: {risk_level})"
    [AStr (tool_name request); AStr (risk_level request)] ;;
  emit (ApproverRequestApproval request) ;;
  response ← approver_request_approval (approver self) request;
  logger INFO "Approval decision: {response.result} by {response.approved_by}"
    [AResult (result response); AStr (approved_by response)] ;;
  mret response.

Definition request_approval (self : t) (tool_name tool_description : string)
    (parameters : Parameters) (step_number : Z) (context : string) : M ApprovalResponse :=
  if bool_decide (backend self = AUTO_APPROVE) then
    now ← time_time;
    mret {| result := APPROVED; message := "Auto-approved";
            approved_by := "system"; timestamp := now |}
  else
    emit (GetToolRiskLevel tool_name) ;;
    let risk_level := get_tool_risk_level tool_name in
    emit (RequiresApproval tool_name risk_level) ;;
    if negb (requires_approval self tool_name risk_level) then
      logger DEBUG "Tool {tool_name} does not require approval" [AStr tool_name] ;;
      now ← time_time;
      mret {| result := APPROVED; message := "Auto-approved (low risk)";
              approved_by := "system"; timestamp := now |}
    else
      let request :=
        {| tool_name := tool_name; tool_description := tool_description;
           parameters := parameters; step_number := step_number;
           context := context; risk_level := risk_level |} in
      answered ←
        match custom_approver self with
        | Some custom =>
            try_except
              (emit (CustomApproverCall request) ;;
               response ← custom request;
               mret (Some response))
              Py.is_Exception
              (λ e,
                 logger ERROR "Custom approver failed: {e}, falling back to default"
                   [AExc e] ;;
                 mret None)
        | None => mret None
        end;
      match answered with
      | Some response => mret response
      | None => request_via_backend self request
      end.

End HITLApprovalService.

(** ** registry/service.py: the execution gate *)

Module Registry.

Section WithDesktop.

(** [windows_use.agent.desktop.service.Desktop] *)
Variable Desktop : Type.

(** What [execute] uses of a [Tool]: its name and description, the
    validation of the keyword arguments by its pydantic model (the value is
    [model_dump()] of the validated arguments), and its invocation. *)
Record Tool : Type := mkTool {
  name : string;
  description : string;
  model_validate : Parameters → Py.Result Parameters;
  invoke : option Desktop → Parameters → M string;
}.

(** [windows_use.agent.registry.views.ToolResult] *)
Record ToolResult : Type := mkToolResult {
  is_success : bool;
  content : option string;
  error : option string;
}.

Record t : Type := mk {
  tools : list Tool;
  tools_registry : gmap string Tool;
  hitl_service : option HITLApprovalService.t;
}.

(** [{tool.name: tool for tool in self.tools}]: a later tool of the same
    name replaces an earlier one. *)
Definition registry (tools : list Tool) : gmap string Tool :=
  foldl (λ d tool, <[name tool := tool]> d) ∅ tools.

Definition __init__ (tools : list Tool) (hitl_service : option HITLApprovalService.t) : t :=
  {| tools := tools; tools_registry := registry tools; hitl_service := hitl_service |}.

(** The [try] block of [execute]. *)
Definition run_tool (tool : Tool) (desktop : option Desktop) (kwargs : Parameters)
    : M ToolResult :=
  try_except
    (emit (ModelValidate (name tool) kwargs) ;;
     args ← (λ w, (model_validate tool kwargs, w, []));
     emit (ToolInvoke (name tool) args) ;;
     content ← invoke tool desktop args;
     mret {| is_success := true; content := Some content; error := None |})
    Py.is_Exception
    (λ e, mret {| is_success := false; content := None; error := Some (Py.str e) |}).

Definition execute (self : t) (tool_name : string) (desktop : option Desktop)
    (step_number : Z) (kwargs : Parameters) : M ToolResult :=
  match tools_registry self !! tool_name with
  | None =>
      mret {| is_success := false; content := None;
              error := Some ("Tool '" +:+ tool_name +:+ "' not found.") |}
  | Some tool =>
      refused ←
        match hitl_service self with
        | Some service =>
            approval_response ←
              HITLApprovalService.request_approval service tool_name (description tool)
                kwargs step_number ("Agent requesting to execute " +:+ tool_name);
            match result approval_response with
            | REJECTED =>
                logger WARNING
                  "Tool execution rejected by HITL: {tool_name} - {approval_response.message}"
                  [AStr tool_name; AStr (message approval_response)] ;;
                mret (Some {| is_success := false; content := None;
                              error := Some ("Tool execution rejected by human approval: "
                                             +:+ message approval_response) |})
            | TIMEOUT =>
                logger WARNING "Tool execution timed out: {tool_name}" [AStr tool_name] ;;
                mret (Some {| is_success := false; content := None;
                              error := Some "Tool execution approval timed out" |})
            | APPROVED =>
                logger INFO
                  "Tool execution approved by {approval_response.approved_by}: {tool_name}"
                  [AStr (approved_by approval_response); AStr tool_name] ;;
                mret None
            end
        | None => mret None
        end;
      match refused with
      | Some tool_result => mret tool_result
      | None => run_tool tool desktop kwargs
      end
  end.

End WithDesktop.

Arguments mkTool {Desktop}.
Arguments name {Desktop}.
Arguments description {Desktop}.
Arguments model_validate {Desktop}.
Arguments invoke {Desktop}.
Arguments mk {Desktop}.
Arguments tools {Desktop}.
Arguments tools_registry {Desktop}.
Arguments hitl_service {Desktop}.
Arguments registry {Desktop}.
Arguments __init__ {Desktop}.
Arguments run_tool {Desktop}.
Arguments execute {Desktop}.

End Registry.

(** ** Reading a trace *)

Definition is_approver_call (ev : Event) : bool :=
  match ev with
  | ApproverRequestApproval _ => true
  | _ => false
  end.

Definition is_custom_call (ev : Event) : bool :=
  match ev with
  | CustomApproverCall _ => true
  | _ => false
  end.


(** Every entry of [CLIApprovalBackend.request_approval] prints the approval
    panel once, before anything else: the panels of a trace count the entries. *)
Definition is_panel (ev : Event) : bool :=
  match ev with
  | ConsolePrint (ApprovalPanel _ _ _ _ _ _ _) => true
  | _ => false
  end.

(** Every answer "d" prints the full parameters once, before the backend enters
    [request_approval] again. *)
Definition is_full_parameters (ev : Event) : bool :=
  match ev with
  | ConsolePrint (FullParameters _) => true
  | _ => false
  end.

Definition count_events (p : Event → bool) (evs : list Event) : nat :=
  List.length (filter (λ ev, p ev = true) evs).

(** Events a backend makes by itself: printing, prompting, reading the clock,
    logging and posting. *)
Definition backend_event (ev : Event) : bool :=
  match ev with
  | Log _ _ _ | ConsolePrint _ | PromptAsk _ _ | TimeTime | RequestsPost _ _ _ => true
  | _ => false
  end.

(** ** The gateway's own steps *)

(** The request [request_approval] builds from its arguments. *)
Definition gateway_request (tool description : string) (params : Parameters)
    (step : Z) (ctx : string) : ApprovalRequest :=
  {| tool_name := tool; tool_description := description; parameters := params;
     step_number := step; context := ctx; risk_level := get_tool_risk_level tool |}.

(** What the gateway does before it asks anybody. *)
Definition classified (tool : string) : list Event :=
  [GetToolRiskLevel tool; RequiresApproval tool (get_tool_risk_level tool)].

(** ** The operator's wait *)

(** The choices the approval prompt offers, and its default. *)
Definition approval_choices : list string := ["y"; "n"; "d"].

(** What one round of the prompt puts on the console. *)
Definition shown (request : ApprovalRequest) : list Event :=
  [ConsolePrint (CLIApprovalBackend.panel request); PromptAsk approval_choices "y"].

(** What the answer "d" adds to it. *)
Definition details (request : ApprovalRequest) : list Event :=
  [ConsolePrint FullParametersTitle; ConsolePrint (FullParameters (parameters request))].


(** ** Sample configurations *)

Module Sample.

(** A world in which the endpoint answers 200 and [requests] is installed. *)
Definition world (inputs : list OperatorEvent) : World :=
  {| operator := inputs; clock := 1700000000;
     requests_importable := true; http_post := λ _ _, Py.Return 200 |}.

(** The same world without the [requests] library. *)
Definition world_without_requests (inputs : list OperatorEvent) : World :=
  {| operator := inputs; clock := 1700000000;
     requests_importable := false; http_post := λ _ _, Py.Return 200 |}.

(** A world whose endpoint is unreachable. *)
Definition world_offline (inputs : list OperatorEvent) : World :=
  {| operator := inputs; clock := 1700000000;
     requests_importable := true;
     http_post := λ _ _, Py.Raise (Py.ConnectionError "connection refused") |}.

Definition shell_request : ApprovalRequest :=
  {| tool_name := "shell_tool"; tool_description := "run cmd";
     parameters := [("command", "dir")]; step_number := 2;
     context := ""; risk_level := "critical" |}.

(** A custom approver that rejects everything. *)
Definition deny_all : ApprovalRequest → M ApprovalResponse :=
  λ _, mret {| result := REJECTED; message := "Shell commands not allowed";
               approved_by := "custom_policy"; timestamp := 0 |}.


(** A custom approver that approves everything. *)
Definition allow_all : ApprovalRequest → M ApprovalResponse :=
  λ _, mret {| result := APPROVED; message := "Approved by custom policy";
               approved_by := "custom_policy"; timestamp := 0 |}.

(** A custom approver that asks at the terminal and is interrupted by Ctrl-C. *)
Definition interrupted_approver : ApprovalRequest → M ApprovalResponse :=
  λ _, raise Py.KeyboardInterrupt.

(** A custom approver that fails with an ordinary error. *)
Definition broken_approver : ApprovalRequest → M ApprovalResponse :=
  λ _, raise (Py.RuntimeError "policy server down").

Definition cli_approver : option HITLApprovalService.Approver :=
  Some (HITLApprovalService.CLIApprover CLIApprovalBackend.__init__).

(** [HITLApprovalService(backend=CLI, min_risk_level="high", custom_approver=custom)] *)
Definition cli_service (custom : option (ApprovalRequest → M ApprovalResponse))
    : HITLApprovalService.t :=
  {| HITLApprovalService.backend := CLI;
     HITLApprovalService.require_approval_for := None;
     HITLApprovalService.min_risk_level := "high";
     HITLApprovalService.custom_approver := custom;
     HITLApprovalService.approver := cli_approver |}.

(** [HITLApprovalService(backend=AUTO_APPROVE, custom_approver=custom)] *)
Definition auto_service (custom : option (ApprovalRequest → M ApprovalResponse))
    : HITLApprovalService.t :=
  {| HITLApprovalService.backend := AUTO_APPROVE;
     HITLApprovalService.require_approval_for := None;
     HITLApprovalService.min_risk_level := "high";
     HITLApprovalService.custom_approver := custom;
     HITLApprovalService.approver := None |}.

(** [HITLApprovalService(backend=CLI, require_approval_for={"click_tool", "type_tool"})] *)
Definition listed_service : HITLApprovalService.t :=
  {| HITLApprovalService.backend := CLI;
     HITLApprovalService.require_approval_for := Some {[ "click_tool"; "type_tool" ]};
     HITLApprovalService.min_risk_level := "high";
     HITLApprovalService.custom_approver := None;
     HITLApprovalService.approver := cli_approver |}.

Definition slack_backend : SlackApprovalBackend.t :=
  SlackApprovalBackend.__init__ "https://hooks.slack.com/test" None.

(** A tool that echoes its command. *)
Definition shell_tool : Registry.Tool unit :=
  {| Registry.name := "shell_tool"; Registry.description := "run cmd";
     Registry.model_validate := λ kwargs, Py.Return kwargs;
     Registry.invoke := λ _ _, mret "done" |}.

Definition shell_registry (service : option HITLApprovalService.t) : Registry.t unit :=
  Registry.__init__ [shell_tool] service.

End Sample.

(** ** What the operator answered *)

(** The line answers "yes": it is empty (the default) or it is "y" up to the
    white space around it. *)
Definition affirms (line : string) : bool :=
  String.eqb line "" || String.eqb (Py.strip line) "y".

(** The line answers "no". *)
Definition declines (line : string) : bool :=
  negb (String.eqb line "") && String.eqb (Py.strip line) "n".

(** The line asks for the details. *)
Definition asks_details (line : string) : bool :=
  negb (String.eqb line "") && String.eqb (Py.strip line) "d".

(** The line is none of the choices: the prompt is shown again. *)
Definition unrecognised (line : string) : bool :=
  negb (String.eqb line "") && negb (bool_decide (Py.strip line ∈ approval_choices)).

(** The verdict the Interactive-Prompt backend gives, from the last event it
    read. *)
Definition verdict_for (consumed : list OperatorEvent) (now : Z) : ApprovalResponse :=
  match last consumed with
  | Some (Typed line) =>
      if affirms line then CLIApprovalBackend.approved_via_cli now
      else if declines line then CLIApprovalBackend.rejected_via_cli now
      else CLIApprovalBackend.interrupted_by_user now
  | _ => CLIApprovalBackend.interrupted_by_user now
  end.

Definition is_post (ev : Event) : bool :=
  match ev with
  | RequestsPost _ _ _ => true
  | _ => false
  end.

(** Events of the terminal: what the Interactive-Prompt backend does. *)
Definition terminal_event (ev : Event) : bool :=
  match ev with
  | Log _ _ _ | ConsolePrint _ | PromptAsk _ _ | TimeTime => true
  | _ => false
  end.

Definition is_action_buttons (b : SlackBlock) : bool :=
  match b with
  | ActionButtons _ => true
  | _ => false
  end.



(** A world whose endpoint answers with the given status. *)
Definition world_with_status (status : Z) (inputs : list OperatorEvent) : World :=
  {| operator := inputs; clock := 1700000000;
     requests_importable := true; http_post := λ _ _, Py.Return status |}.

(** A world in which the post is interrupted by Ctrl-C. *)
Definition world_interrupted_post (inputs : list OperatorEvent) : World :=
  {| operator := inputs; clock := 1700000000;
     requests_importable := true; http_post := λ _ _, Py.Raise Py.KeyboardInterrupt |}.

(** [HITLApprovalService(backend=CLI, min_risk_level=threshold)] *)
Definition service_with_threshold (threshold : string) : HITLApprovalService.t :=
  {| HITLApprovalService.backend := CLI;
     HITLApprovalService.require_approval_for := None;
     HITLApprovalService.min_risk_level := threshold;
     HITLApprovalService.custom_approver := None;
     HITLApprovalService.approver := Sample.cli_approver |}.

(** A second tool registered under the name of [Sample.shell_tool]. *)
Definition shadowing_tool : Registry.Tool unit :=
  {| Registry.name := "shell_tool"; Registry.description := "run cmd in a sandbox";
     Registry.model_validate := λ kwargs, Py.Return kwargs;
     Registry.invoke := λ _ _, mret "sandboxed" |}.


(** ** slack/handlers.py *)

Module SlackHandlers.

(** A Slack event or command: a dictionary whose values are taken to be
    strings. *)
Definition Payload : Type := gmap string string.

(** [d.get(key, default)] *)
Definition get (d : Payload) (key dflt : string) : string := default dflt (d !! key).

Definition nl : string := String (ascii_of_nat 10) EmptyString.

(** [s.replace(old, "")] for a non-empty [old]: the occurrences are found from
    left to right and do not overlap; [skip] characters of an occurrence are
    still to be dropped. *)
Fixpoint remove_go (old : string) (skip : nat) (s : string) : string :=
  match s with
  | EmptyString => EmptyString
  | String c s' =>
      match skip with
      | S k => remove_go old k s'
      | O =>
          if String.prefix old s then remove_go old (String.length old - 1) s'
          else String c (remove_go old 0 s')
      end
  end.

Definition remove (old s : string) : string := remove_go old 0 s.

(** What [agent.invoke] returns: an object that may be falsy and may have no
    [content]. *)
Record AgentResult : Type := mkAgentResult {
  truthy : bool;
  content : option string;
}.

(** The calls a handler makes. *)
Inductive Effect : Type :=
| Say (text : string)
| Ack
| AuthTest
| LockAcquire
| LockRelease
| AgentInvoke (task : string)
| Print (text : string)
| TracebackPrintExc.

(** The surroundings of a handler: whether the lock is held, what the agent
    does with a task, the bot's user id as [auth_test] gives it (or the
    exception it raises), and the class name of the agent's LLM when the agent
    has one.  [say] and [ack] are taken to return. *)
Record Surroundings : Type := mkSurroundings {
  locked : bool;
  agent_invoke : string → Py.Result AgentResult;
  auth_test_user_id : Py.Result string;
  llm_class_name : option string;
}.

Definition H (A : Type) : Type := Surroundings → Py.Result A * Surroundings * list Effect.

#[export] Instance H_ret : MRet H := λ A a s, (Py.Return a, s, []).

#[export] Instance H_bind : MBind H := λ A B k c s,
  match c s with
  | (Py.Return a, s1, effs1) =>
      match k a s1 with
      | (r, s2, effs2) => (r, s2, effs1 ++ effs2)
      end
  | (Py.Raise e, s1, effs1) => (Py.Raise e, s1, effs1)
  end.

Definition effect (eff : Effect) : H unit := λ s, (Py.Return tt, s, [eff]).

Definition say (text : string) : H unit := effect (Say text).

Definition ack : H unit := effect Ack.

Definition print (text : string) : H unit := effect (Print text).

Definition set_locked (s : Surroundings) (b : bool) : Surroundings :=
  {| locked := b; agent_invoke := agent_invoke s;
     auth_test_user_id := auth_test_user_id s; llm_class_name := llm_class_name s |}.

(** [with self.lock: body]: the lock is taken (the wait for it, if another
    thread holds it, is not modelled), and it is released when the body returns
    and when it raises. *)
Definition with_lock {A} (body : H A) : H A :=
  λ s,
    match body (set_locked s true) with
    | (r, s1, effs) => (r, set_locked s1 false, [LockAcquire] ++ effs ++ [LockRelease])
    end.

(** [try: body  except Exception as e: handler] *)
Definition try_except_Exception {A} (body : H A) (handler : Py.Exc → H A) : H A :=
  λ s,
    match body s with
    | (Py.Return a, s1, effs1) => (Py.Return a, s1, effs1)
    | (Py.Raise e, s1, effs1) =>
        if Py.is_Exception e then
          match handler e s1 with
          | (r, s2, effs2) => (r, s2, effs1 ++ effs2)
          end
        else (Py.Raise e, s1, effs1)
    end.

(** [self.agent.invoke(task)] *)
Definition invoke (task : string) : H AgentResult :=
  λ s, (agent_invoke s task, s, [AgentInvoke task]).

(** [self.app.client.auth_test()["user_id"]] *)
Definition auth_test : H string := λ s, (auth_test_user_id s, s, [AuthTest]).

Definition executing (task : string) : string :=
  "🤖 Executing task: `" +:+ task +:+ "`" +:+ nl +:+ "⏳ Please wait...".

Definition completed (result : AgentResult) : string :=
  match truthy result, content result with
  | true, Some c =>
      "✅ Task completed!" +:+ nl +:+ nl +:+ "```" +:+ nl +:+ c +:+ nl +:+ "```"
  | _, _ => "✅ Task completed!"
  end.

Definition error_msg (e : Py.Exc) : string :=
  "❌ Error executing task:" +:+ nl +:+ "```" +:+ nl +:+ Py.str e +:+ nl +:+ "```".

Definition greeting : string :=
  "👋 Hi! Please provide a task for me to execute on Windows.".

Definition usage : string :=
  "Usage: `/windows <task description>`" +:+ nl +:+
  "Example: `/windows open notepad and type hello world`".

(** [MessageHandler._execute_task] *)
Definition _execute_task (task user : string) : H unit :=
  say (executing task) ;;
  try_except_Exception
    (with_lock
       (result ← invoke task;
        say (completed result)))
    (λ e,
       say (error_msg e) ;;
       print ("Error executing task for user " +:+ user +:+ ":") ;;
       effect TracebackPrintExc).

(** [MessageHandler.handle_mention] *)
Definition handle_mention (event : Payload) : H unit :=
  let text := get event "text" "" in
  let user := get event "user" "unknown" in
  bot_id ← auth_test;
  let text := Py.strip (remove ("<@" +:+ bot_id +:+ ">") text) in
  if String.eqb text "" then say greeting
  else _execute_task text user.

(** [MessageHandler.handle_message] *)
Definition handle_message (event : Payload) : H unit :=
  if Py.truthy (event !! "bot_id")
     || negb (bool_decide (event !! "channel_type" = Some "im"))
  then mret tt
  else
    let text := Py.strip (get event "text" "") in
    let user := get event "user" "unknown" in
    if String.eqb text "" then mret tt
    else _execute_task text user.

(** [CommandHandler.handle_windows_command] *)
Definition handle_windows_command (command : Payload) : H unit :=
  ack ;;
  let text := Py.strip (get command "text" "") in
  let user := get command "user_id" "unknown" in
  if String.eqb text "" then say usage
  else
    say (executing text) ;;
    try_except_Exception
      (with_lock
         (result ← invoke text;
          say (completed result)))
      (λ e,
         say (error_msg e) ;;
         print ("Error executing /windows command for user " +:+ user +:+ ":") ;;
         effect TracebackPrintExc).

Definition status_text (is_busy : bool) (llm : option string) : string :=
  nl +:+ "🤖 *Windows-Use Agent Status*" +:+ nl +:+ nl +:+
  "• Status: " +:+ (if is_busy then "🔴 Busy" else "🟢 Ready") +:+ nl +:+
  "• Version: 0.6.9" +:+ nl +:+
  "• Platform: Windows" +:+ nl +:+
  "• LLM: " +:+ default "Unknown" llm +:+ nl +:+ nl +:+
  (if is_busy then "The agent is currently executing a task. Please wait..."
   else "Ready to accept new tasks!") +:+ nl +:+ "        ".

(** [CommandHandler.handle_status_command] *)
Definition handle_status_command : H unit :=
  ack ;;
  is_busy ← (λ s, (Py.Return (locked s), s, []));
  llm ← (λ s, (Py.Return (llm_class_name s), s, []));
  say (status_text is_busy llm).

Definition is_say (eff : Effect) : bool :=
  match eff with
  | Say _ => true
  | _ => false
  end.

Definition is_invoke (eff : Effect) : bool :=
  match eff with
  | AgentInvoke _ => true
  | _ => false
  end.

(** The effects on the lock and on the agent. *)
Definition touches_agent (eff : Effect) : bool :=
  match eff with
  | LockAcquire | LockRelease | AgentInvoke _ => true
  | _ => false
  end.

End SlackHandlers.

(** A string of white space only. *)
Fixpoint blank (s : string) : bool :=
  match s with
  | EmptyString => true
  | String c s' => Py.is_space c && blank s'
  end.

(** Sample surroundings of a handler. *)
Definition idle_agent (outcome : Py.Result SlackHandlers.AgentResult)
    : SlackHandlers.Surroundings :=
  {| SlackHandlers.locked := false;
     SlackHandlers.agent_invoke := λ _, outcome;
     SlackHandlers.auth_test_user_id := Py.Return "U042";
     SlackHandlers.llm_class_name := Some "ChatAnthropic" |}.

(** ** slack/service.py and slack_bot.py *)

(** [os.environ], and [os.getenv(name)], which is [None] for an unset name. *)
Definition Environ : Type := gmap string string.

Definition getenv (environ : Environ) (name : string) : option string := environ !! name.

(** Python's [a or b] on optional strings: [a] when it is truthy, else [b]. *)
Definition py_or (a b : option string) : option string :=
  if Py.truthy a then a else b.

Module SlackAgent.

Inductive Handler : Type :=
| handle_mention
| handle_message
| handle_windows_command
| handle_help_command
| handle_status_command.

(** A call of [self.app.event(name)(handler)] or [self.app.command(name)(handler)]. *)
Inductive Registration : Type :=
| OnEvent (name : string) (handler : Handler)
| OnCommand (name : string) (handler : Handler).

(** What the constructor builds, in order. *)
Inductive Step : Type :=
| NewApp (token : string)
| NewAgent
| NewLock
| NewMessageHandler
| NewCommandHandler
| Register (r : Registration).

(** How [App(token=...)] and [Agent(llm=..., **agent_config)] end. *)
Record Platform : Type := mkPlatform {
  new_app : string → Py.Result unit;
  new_agent : Py.Result unit;
}.

Record t : Type := mk {
  slack_bot_token : string;
  slack_app_token : string;
}.

Definition _register_handlers : list Step :=
  [Register (OnEvent "app_mention" handle_mention);
   Register (OnEvent "message" handle_message);
   Register (OnCommand "/windows" handle_windows_command);
   Register (OnCommand "/windows-help" handle_help_command);
   Register (OnCommand "/windows-status" handle_status_command)].

(** [SlackAgent.__init__]: the result and the steps taken. *)
Definition __init__ (environ : Environ) (platform : Platform)
    (slack_bot_token slack_app_token : option string) : Py.Result t * list Step :=
  let bot := py_or slack_bot_token (getenv environ "SLACK_BOT_TOKEN") in
  let app := py_or slack_app_token (getenv environ "SLACK_APP_TOKEN") in
  if negb (Py.truthy bot) then
    (Py.Raise (Py.ValueError
       "SLACK_BOT_TOKEN is required. Set it via environment variable or constructor."), [])
  else if negb (Py.truthy app) then
    (Py.Raise (Py.ValueError
       "SLACK_APP_TOKEN is required. Set it via environment variable or constructor."), [])
  else
    match new_app platform (default "" bot) with
    | Py.Raise e => (Py.Raise e, [NewApp (default "" bot)])
    | Py.Return _ =>
        match new_agent platform with
        | Py.Raise e => (Py.Raise e, [NewApp (default "" bot); NewAgent])
        | Py.Return _ =>
            (Py.Return {| slack_bot_token := default "" bot;
                          slack_app_token := default "" app |},
             [NewApp (default "" bot); NewAgent; NewLock; NewMessageHandler;
              NewCommandHandler] ++ _register_handlers)
        end
    end.

End SlackAgent.

Module SlackBot.

(** The LLM [get_llm] builds: the class, and the key (or base URL) and model it
    is given. *)
Inductive LLM : Type :=
| AnthropicLLM (api_key model : string)
| OpenAILLM (api_key model : string)
| GoogleLLM (api_key model : string)
| MistralLLM (api_key model : string)
| GroqLLM (api_key model : string)
| OllamaLLM (base_url model : string).

Definition no_key_message : list string :=
  ["❌ Error: No LLM API key found in environment variables.";
   SlackHandlers.nl +:+ "Please set one of the following environment variables:";
   "  - ANTHROPIC_API_KEY (for Claude)";
   "  - OPENAI_API_KEY (for GPT)";
   "  - GOOGLE_API_KEY (for Gemini)";
   "  - MISTRAL_API_KEY (for Mistral)";
   "  - GROQ_API_KEY (for Groq)";
   "  - OLLAMA_BASE_URL (for local Ollama)";
   SlackHandlers.nl +:+ "You can copy .env.example to .env and add your API keys there."].

(** [get_llm]: the LLM, or [SystemExit] from [sys.exit(1)], and the lines
    printed. *)
Definition get_llm (environ : Environ) : Py.Result LLM * list string :=
  if Py.truthy (getenv environ "ANTHROPIC_API_KEY") then
    (Py.Return (AnthropicLLM (default "" (getenv environ "ANTHROPIC_API_KEY"))
                  "claude-3-5-sonnet-20241022"), [])
  else if Py.truthy (getenv environ "OPENAI_API_KEY") then
    (Py.Return (OpenAILLM (default "" (getenv environ "OPENAI_API_KEY")) "gpt-4o"), [])
  else if Py.truthy (getenv environ "GOOGLE_API_KEY") then
    (Py.Return (GoogleLLM (default "" (getenv environ "GOOGLE_API_KEY"))
                  "gemini-2.0-flash-exp"), [])
  else if Py.truthy (getenv environ "MISTRAL_API_KEY") then
    (Py.Return (MistralLLM (default "" (getenv environ "MISTRAL_API_KEY"))
                  "mistral-large-latest"), [])
  else if Py.truthy (getenv environ "GROQ_API_KEY") then
    (Py.Return (GroqLLM (default "" (getenv environ "GROQ_API_KEY"))
                  "llama-3.3-70b-versatile"), [])
  else if Py.truthy (getenv environ "OLLAMA_BASE_URL") then
    (Py.Return (OllamaLLM (default "http://localhost:11434" (getenv environ "OLLAMA_BASE_URL"))
                  "llama3.2"), [])
  else (Py.Raise Py.SystemExit, no_key_message).

(** The variables [get_llm] looks at, in its order, each with the LLM it
    builds from the variable's value. *)
Definition providers : list (string * (string → LLM)) :=
  [("ANTHROPIC_API_KEY", λ v, AnthropicLLM v "claude-3-5-sonnet-20241022");
   ("OPENAI_API_KEY", λ v, OpenAILLM v "gpt-4o");
   ("GOOGLE_API_KEY", λ v, GoogleLLM v "gemini-2.0-flash-exp");
   ("MISTRAL_API_KEY", λ v, MistralLLM v "mistral-large-latest");
   ("GROQ_API_KEY", λ v, GroqLLM v "llama-3.3-70b-versatile");
   ("OLLAMA_BASE_URL", λ v, OllamaLLM v "llama3.2")].

(** The first provider whose variable is set to a non-empty value. *)
Fixpoint first_set (environ : Environ) (candidates : list (string * (string → LLM)))
    : option LLM :=
  match candidates with
  | [] => None
  | (name, build) :: others =>
      match getenv environ name with
      | Some value => if String.eqb value "" then first_set environ others
                      else Some (build value)
      | None => first_set environ others
      end
  end.

End SlackBot.

(** A platform on which the Slack app and the agent can be built. *)
Definition working_platform : SlackAgent.Platform :=
  {| SlackAgent.new_app := λ _, Py.Return tt; SlackAgent.new_agent := Py.Return tt |}.

(** * Properties *)

(** ** Running a computation *)

Ltac run :=
  unfold logger, console_print;
  unfold mbind, mret, M_bind, M_ret;
  unfold bind, ret, raise, try_except, emit, time_time, Prompt_ask.

#[local] Arguments CLIApprovalBackend.request_approval : simpl never.
#[local] Arguments SlackApprovalBackend.request_approval : simpl never.
#[local] Arguments HITLApprovalService.approver_request_approval : simpl never.
#[local] Arguments HITLApprovalService.request_via_backend : simpl never.
#[local] Arguments HITLApprovalService.request_approval : simpl never.
#[local] Arguments Registry.run_tool : simpl never.

Lemma count_events_app (p : Event → bool) (xs ys : list Event) :
  count_events p (xs ++ ys) = (count_events p xs + count_events p ys)%nat.
Proof. unfold count_events. by rewrite filter_app, length_app. Qed.

Lemma count_events_none (p : Event → bool) (evs : list Event) :
  Forall (λ ev, p ev = false) evs → count_events p evs = 0%nat.
Proof.
  unfold count_events. induction 1 as [|ev evs Hev _ IH]; [done|].
  rewrite filter_cons_False; [exact IH | congruence].
Qed.

Lemma backend_events_no_approver_call (evs : list Event) :
  Forall (λ ev, backend_event ev = true) evs →
  Forall (λ ev, is_approver_call ev = false) evs.
Proof. intros H. eapply Forall_impl; [exact H|]. by intros []. Qed.

(** ** The classifier *)

Lemma risk_sets_disjoint :
  CRITICAL_RISK_TOOLS ## HIGH_RISK_TOOLS ∧ CRITICAL_RISK_TOOLS ## MEDIUM_RISK_TOOLS ∧
  CRITICAL_RISK_TOOLS ## LOW_RISK_TOOLS ∧ HIGH_RISK_TOOLS ## MEDIUM_RISK_TOOLS ∧
  HIGH_RISK_TOOLS ## LOW_RISK_TOOLS ∧ MEDIUM_RISK_TOOLS ## LOW_RISK_TOOLS.
Proof.
  unfold CRITICAL_RISK_TOOLS, HIGH_RISK_TOOLS, MEDIUM_RISK_TOOLS, LOW_RISK_TOOLS.
  repeat split; set_solver.
Qed.

Lemma py_in_true (x : string) (s : gset string) : py_in x s = true ↔ x ∈ s.
Proof. unfold py_in. apply bool_decide_eq_true. Qed.

Lemma py_in_false (x : string) (s : gset string) : py_in x s = false ↔ x ∉ s.
Proof. unfold py_in. apply bool_decide_eq_false. Qed.

Section Order.

Variables critical high medium : gset string.
Variable name : string.

Lemma risk_level_in_critical :
  name ∈ critical → risk_level_in critical high medium name = "critical".
Proof. intros H. unfold risk_level_in. by rewrite (proj2 (py_in_true _ _) H). Qed.

Lemma risk_level_in_high :
  name ∉ critical → name ∈ high → risk_level_in critical high medium name = "high".
Proof.
  intros Hc Hh. unfold risk_level_in.
  by rewrite (proj2 (py_in_false _ _) Hc), (proj2 (py_in_true _ _) Hh).
Qed.

Lemma risk_level_in_medium :
  name ∉ critical → name ∉ high → name ∈ medium →
  risk_level_in critical high medium name = "medium".
Proof.
  intros Hc Hh Hm. unfold risk_level_in.
  by rewrite (proj2 (py_in_false _ _) Hc), (proj2 (py_in_false _ _) Hh),
    (proj2 (py_in_true _ _) Hm).
Qed.

Lemma risk_level_in_low :
  name ∉ critical → name ∉ high → name ∉ medium →
  risk_level_in critical high medium name = "low".
Proof.
  intros Hc Hh Hm. unfold risk_level_in.
  by rewrite (proj2 (py_in_false _ _) Hc), (proj2 (py_in_false _ _) Hh),
    (proj2 (py_in_false _ _) Hm).
Qed.

End Order.

(** C8: [get_tool_risk_level] is a function defined on every string; it tests
    membership in the critical, then the high, then the medium set, so names of
    those sets get "critical", "high" and "medium", and every other string, the
    names of the low set among them, gets "low". *)
Theorem get_tool_risk_level_classifies :
  (∀ tool, tool ∈ CRITICAL_RISK_TOOLS → get_tool_risk_level tool = "critical") ∧
  (∀ tool, tool ∈ HIGH_RISK_TOOLS → get_tool_risk_level tool = "high") ∧
  (∀ tool, tool ∈ MEDIUM_RISK_TOOLS → get_tool_risk_level tool = "medium") ∧
  (∀ tool, tool ∈ LOW_RISK_TOOLS → get_tool_risk_level tool = "low") ∧
  (∀ tool, tool ∉ CRITICAL_RISK_TOOLS ∪ HIGH_RISK_TOOLS ∪ MEDIUM_RISK_TOOLS →
     get_tool_risk_level tool = "low") ∧
  (∀ tool, get_tool_risk_level tool =
     if py_in tool CRITICAL_RISK_TOOLS then "critical"
     else if py_in tool HIGH_RISK_TOOLS then "high"
     else if py_in tool MEDIUM_RISK_TOOLS then "medium"
     else "low") ∧
  (∀ tool, get_tool_risk_level tool ∈ ["critical"; "high"; "medium"; "low"]).
Proof.
  destruct risk_sets_disjoint as (Hch & Hcm & Hcl & Hhm & Hhl & Hml).
  unfold get_tool_risk_level.
  split; [intros tool H; by apply risk_level_in_critical|].
  split; [intros tool H; apply risk_level_in_high; [set_solver | done]|].
  split; [intros tool H; apply risk_level_in_medium; [set_solver | set_solver | done]|].
  split; [intros tool H; apply risk_level_in_low; set_solver|].
  split; [intros tool H; apply risk_level_in_low; set_solver|].
  split; [done|].
  intros tool. unfold risk_level_in.
  repeat case_match; set_solver.
Qed.

Lemma get_tool_risk_level_classifies_witness :
  get_tool_risk_level "shell_tool" = "critical" ∧
  get_tool_risk_level "memory_tool" = "high" ∧
  get_tool_risk_level "drag_tool" = "medium" ∧
  get_tool_risk_level "scrape_tool" = "low" ∧
  get_tool_risk_level "unknown_tool" = "low".
Proof.
  destruct get_tool_risk_level_classifies as (Hc & Hh & Hm & Hl & Hn & _).
  split; [apply Hc; unfold CRITICAL_RISK_TOOLS; set_solver|].
  split; [apply Hh; unfold HIGH_RISK_TOOLS; set_solver|].
  split; [apply Hm; unfold MEDIUM_RISK_TOOLS; set_solver|].
  split; [apply Hl; unfold LOW_RISK_TOOLS; set_solver|].
  apply Hn. by vm_compute.
Defined.

(** ** The policy *)

Lemma rank_strict_chain : rank Low < rank Medium < rank High ∧ rank High < rank Critical.
Proof. cbn. lia. Qed.

Lemma rank_injective (a b : RiskTier) : rank a = rank b → a = b.
Proof. destruct a, b; cbn; congruence || lia. Qed.

Lemma risk_hierarchy_tier (t : RiskTier) (dflt : Z) :
  dict_get risk_hierarchy (tier_name t) dflt = rank t.
Proof. by destruct t. Qed.

(** C6: without an explicit required-set, a tool of tier [T] requires approval
    under threshold [H] exactly when [rank T ≥ rank H], for each of the sixteen
    pairs of tiers and for every tool name. *)
Theorem requires_approval_by_threshold
    (self : HITLApprovalService.t) (tool : string) (T H : RiskTier) :
  HITLApprovalService.require_approval_for self = None →
  HITLApprovalService.min_risk_level self = tier_name H →
  HITLApprovalService.requires_approval self tool (tier_name T) = true ↔ rank H ≤ rank T.
Proof.
  intros Hnone Hmin. unfold HITLApprovalService.requires_approval.
  rewrite Hnone, Hmin, !risk_hierarchy_tier.
  cbv zeta. rewrite bool_decide_eq_true. lia.
Qed.

Lemma requires_approval_by_threshold_witness :
  HITLApprovalService.requires_approval (Sample.cli_service None) "shell_tool" "critical" = true ∧
  HITLApprovalService.requires_approval (Sample.cli_service None) "click_tool" "medium" = false.
Proof.
  split.
  - apply (requires_approval_by_threshold (Sample.cli_service None) "shell_tool" Critical High);
      [reflexivity | reflexivity | cbn; lia].
  - apply not_true_is_false. intros Htrue.
    apply (requires_approval_by_threshold (Sample.cli_service None) "click_tool" Medium High)
      in Htrue; [cbn in Htrue; lia | reflexivity | reflexivity].
Defined.

(** ** The prompt *)

Lemma prompt_loop_length (choices : list string) (dflt : string) (inputs : list OperatorEvent) :
  (List.length (prompt_loop choices dflt inputs).2 ≤ List.length inputs)%nat.
Proof.
  induction inputs as [|[line| |] rest IH]; cbn; try lia.
  repeat case_match; cbn; lia.
Qed.

Lemma prompt_loop_return_shorter (choices : list string) (dflt : string)
    (inputs rest : list OperatorEvent) (choice : string) :
  prompt_loop choices dflt inputs = (Py.Return choice, rest) →
  (List.length rest < List.length inputs)%nat.
Proof.
  induction inputs as [|[line| |] more IH]; cbn; try discriminate.
  repeat case_match; intros Hp; try (injection Hp as _ <-; lia).
  specialize (IH Hp). lia.
Qed.

Lemma prompt_loop_raises (choices : list string) (dflt : string)
    (inputs rest : list OperatorEvent) (e : Py.Exc) :
  prompt_loop choices dflt inputs = (Py.Raise e, rest) →
  CLIApprovalBackend.interrupted e = true.
Proof.
  induction inputs as [|[line| |] more IH]; cbn.
  - by intros [= <- _].
  - repeat case_match; try discriminate. exact IH.
  - by intros [= <- _].
  - by intros [= <- _].
Qed.

Lemma prompt_loop_empty_line (choices : list string) (dflt : string)
    (rest : list OperatorEvent) :
  prompt_loop choices dflt (Typed "" :: rest) = (Py.Return dflt, rest).
Proof. reflexivity. Qed.

(** ** The Interactive-Prompt backend *)

Section CLI.

Variable self : CLIApprovalBackend.t.
Variable request : ApprovalRequest.

Import CLIApprovalBackend.

(** One round of [request_approval]. *)
Lemma request_approval_depth_step (depth : nat) (w : World) :
  request_approval_depth (S depth) self request w =
  match prompt_loop approval_choices "y" (operator w) with
  | (Py.Return choice, rest) =>
      if String.eqb (Py.lower choice) "y" then
        (Py.Return (approved_via_cli (clock w)), set_operator w rest,
         shown request ++ [TimeTime])
      else if String.eqb (Py.lower choice) "d" then
        match request_approval_depth depth self request (set_operator w rest) with
        | (Py.Return v, w2, evs) => (Py.Return v, w2, shown request ++ details request ++ evs)
        | (Py.Raise e, w2, evs) =>
            if interrupted e then
              (Py.Return (interrupted_by_user (clock w2)), w2,
               shown request ++ details request ++ evs ++
               [Log WARNING "Approval interrupted by user" []; TimeTime])
            else (Py.Raise e, w2, shown request ++ details request ++ evs)
        end
      else
        (Py.Return (rejected_via_cli (clock w)), set_operator w rest,
         shown request ++ [TimeTime])
  | (Py.Raise e, rest) =>
      if interrupted e then
        (Py.Return (interrupted_by_user (clock w)), set_operator w rest,
         shown request ++ [Log WARNING "Approval interrupted by user" []; TimeTime])
      else (Py.Raise e, set_operator w rest, shown request)
  end.
Proof.
  cbn [request_approval_depth]. run; cbn. unfold approval_choices.
  destruct (prompt_loop _ _ _) as [[choice|e] rest]; cbn.
  - destruct (String.eqb (Py.lower choice) "y"); cbn; [done|].
    destruct (String.eqb (Py.lower choice) "d"); cbn; [|done].
    destruct (request_approval_depth depth self request (set_operator w rest))
      as [[[v|e] w2] evs]; cbn; [done|].
    by destruct (interrupted e).
  - by destruct (interrupted e).
Qed.

(** With a depth above the number of events left, the call returns, its events
    are the backend's own, and it only reads the operator. *)
Lemma request_approval_depth_returns (depth : nat) (w : World) :
  (List.length (operator w) < depth)%nat →
  ∃ v inputs evs,
    request_approval_depth depth self request w = (Py.Return v, set_operator w inputs, evs) ∧
    Forall (λ ev, backend_event ev = true) evs.
Proof.
  revert w. induction depth as [|depth IH]; intros w Hlen; [lia|].
  rewrite request_approval_depth_step.
  destruct (prompt_loop _ _ _) as [[choice|e] rest] eqn:Hprompt.
  - destruct (String.eqb (Py.lower choice) "y").
    { eexists _, _, _. split; [done|]. by repeat constructor. }
    destruct (String.eqb (Py.lower choice) "d").
    2:{ eexists _, _, _. split; [done|]. by repeat constructor. }
    apply prompt_loop_return_shorter in Hprompt.
    destruct (IH (set_operator w rest)) as (v & inputs & evs & -> & Hevs); [cbn; lia|].
    exists v, inputs, (shown request ++ details request ++ evs)%list. split; [done|].
    repeat (apply Forall_cons; split; [done|]). exact Hevs.
  - rewrite (prompt_loop_raises _ _ _ _ _ Hprompt).
    eexists _, _, _. split; [done|]. by repeat constructor.
Qed.

(** The depth does not matter once it is above the number of events left. *)
Lemma request_approval_depth_irrelevant (d1 d2 : nat) (w : World) :
  (List.length (operator w) < d1)%nat →
  (List.length (operator w) < d2)%nat →
  request_approval_depth d1 self request w = request_approval_depth d2 self request w.
Proof.
  revert d2 w. induction d1 as [|d1 IH]; intros [|d2] w H1 H2; try lia.
  rewrite !request_approval_depth_step.
  destruct (prompt_loop _ _ _) as [[choice|e] rest] eqn:Hprompt; [|done].
  apply prompt_loop_return_shorter in Hprompt.
  rewrite (IH d2 (set_operator w rest)); [done | cbn; lia | cbn; lia].
Qed.

(** [request_approval] in terms of itself, as the source reads. *)
Lemma request_approval_unfold (w : World) :
  request_approval self request w =
  match prompt_loop approval_choices "y" (operator w) with
  | (Py.Return choice, rest) =>
      if String.eqb (Py.lower choice) "y" then
        (Py.Return (approved_via_cli (clock w)), set_operator w rest,
         shown request ++ [TimeTime])
      else if String.eqb (Py.lower choice) "d" then
        let '(r, w2, evs) := request_approval self request (set_operator w rest) in
        (r, w2, shown request ++ details request ++ evs)
      else
        (Py.Return (rejected_via_cli (clock w)), set_operator w rest,
         shown request ++ [TimeTime])
  | (Py.Raise e, rest) =>
      (Py.Return (interrupted_by_user (clock w)), set_operator w rest,
       shown request ++ [Log WARNING "Approval interrupted by user" []; TimeTime])
  end.
Proof.
  unfold request_approval at 1. rewrite request_approval_depth_step.
  destruct (prompt_loop _ _ _) as [[choice|e] rest] eqn:Hprompt.
  - destruct (String.eqb (Py.lower choice) "y"); [done|].
    destruct (String.eqb (Py.lower choice) "d"); [|done].
    apply prompt_loop_return_shorter in Hprompt.
    unfold request_approval.
    rewrite (request_approval_depth_irrelevant
               (List.length (operator w)) (S (List.length (operator (set_operator w rest)))));
      [|cbn; lia|cbn; lia].
    destruct (request_approval_depth_returns
                (S (List.length (operator (set_operator w rest)))) (set_operator w rest))
      as (v & inputs & evs & -> & _); [lia|done].
  - by rewrite (prompt_loop_raises _ _ _ _ _ Hprompt).
Qed.

(** The backend always answers: no script of the operator makes it raise. *)
Lemma request_approval_returns (w : World) :
  ∃ v inputs evs,
    request_approval self request w = (Py.Return v, set_operator w inputs, evs) ∧
    Forall (λ ev, backend_event ev = true) evs.
Proof. apply request_approval_depth_returns. lia. Qed.

(** The backend enters [request_approval] once, and once more for every time it
    shows the details. *)
Lemma request_approval_entries (n : nat) (w : World) :
  (List.length (operator w) < n)%nat →
  count_events is_panel (request_approval self request w).2 =
    S (count_events is_full_parameters (request_approval self request w).2).
Proof.
  revert w. induction n as [|n IH]; intros w Hlen; [lia|].
  rewrite request_approval_unfold.
  destruct (prompt_loop _ _ _) as [[choice|e] rest] eqn:Hprompt; [|done].
  destruct (String.eqb (Py.lower choice) "y"); [done|].
  destruct (String.eqb (Py.lower choice) "d"); [|done].
  apply prompt_loop_return_shorter in Hprompt.
  specialize (IH (set_operator w rest) ltac:(cbn; lia)).
  destruct (request_approval self request (set_operator w rest)) as [[r w2] evs].
  cbn [snd] in IH |- *.
  rewrite !(count_events_app _ (shown request)), !(count_events_app _ (details request)), IH.
  done.
Qed.

End CLI.



(** C10: an empty line at the prompt answers the default choice, "y": the
    Interactive-Prompt backend returns APPROVED, approved by "human". *)
Theorem cli_empty_input_approves
    (self : CLIApprovalBackend.t) (request : ApprovalRequest) (w : World)
    (rest : list OperatorEvent) :
  operator w = Typed "" :: rest →
  CLIApprovalBackend.request_approval self request w =
    (Py.Return {| result := APPROVED; message := "Approved via CLI";
                  approved_by := "human"; timestamp := clock w |},
     set_operator w rest,
     [ConsolePrint (CLIApprovalBackend.panel request); PromptAsk ["y"; "n"; "d"] "y";
      TimeTime]).
Proof.
  intros Hinput. by rewrite request_approval_unfold, Hinput, prompt_loop_empty_line.
Qed.

Lemma cli_empty_input_approves_witness :
  CLIApprovalBackend.request_approval CLIApprovalBackend.__init__ Sample.shell_request
    (Sample.world [Typed ""; Typed "n"]) =
    (Py.Return {| result := APPROVED; message := "Approved via CLI";
                  approved_by := "human"; timestamp := 1700000000 |},
     set_operator (Sample.world [Typed ""; Typed "n"]) [Typed "n"],
     [ConsolePrint (CLIApprovalBackend.panel Sample.shell_request);
      PromptAsk ["y"; "n"; "d"] "y"; TimeTime]).
Proof.
  apply (cli_empty_input_approves CLIApprovalBackend.__init__ Sample.shell_request
           (Sample.world [Typed ""; Typed "n"]) [Typed "n"]).
  reflexivity.
Defined.

(** ** The Webhook-Notify backend *)

Section Slack.

Variable self : SlackApprovalBackend.t.
Variable request : ApprovalRequest.

Import SlackApprovalBackend.

Ltac run_slack :=
  unfold SlackApprovalBackend.request_approval, import_requests, requests_post,
    raise_for_status;
  run; cbn.

(** Without [requests] the backend rejects by itself and never prompts. *)
Lemma slack_without_requests (w : World) :
  requests_importable w = false →
  SlackApprovalBackend.request_approval self request w =
    (Py.Return (not_available (clock w)), w,
     [Log ERROR "requests library required for Slack integration" []; TimeTime]).
Proof. intros Himport. run_slack. by rewrite Himport. Qed.

(** C2, as the code has it: when [requests] can be imported, and whether the
    post succeeds, is answered with an error status or raises an [Exception],
    the backend logs the outcome and returns what the Interactive-Prompt backend
    answers for the same request in the same world; the notification itself
    decides nothing. *)
Theorem slack_defers_to_cli (w : World) :
  requests_importable w = true →
  (∀ e, http_post w (webhook_url self) (slack_message self request) = Py.Raise e →
        Py.is_Exception e = true) →
  SlackApprovalBackend.request_approval self request w =
    let '(r, w', evs) :=
      CLIApprovalBackend.request_approval CLIApprovalBackend.__init__ request w in
    (r, w', notice self request w ++ evs).
Proof.
  intros Himport Hexc. run_slack. rewrite Himport. cbn. unfold notice.
  destruct (request_approval_returns CLIApprovalBackend.__init__ request w)
    as (v & inputs & evs & Hcli & _).
  destruct (http_post w _ _) as [status|e] eqn:Hpost; cbn.
  - case_bool_decide; cbn.
    + by rewrite Hcli.
    + destruct (Py.truthy (slack_token self)); cbn; by rewrite Hcli.
  - rewrite (Hexc e eq_refl). cbn. by rewrite Hcli.
Qed.

(** Whatever happens, the backend's events are its own. *)
Lemma slack_events (w : World) :
  Forall (λ ev, backend_event ev = true)
    (SlackApprovalBackend.request_approval self request w).2.
Proof.
  destruct (request_approval_returns CLIApprovalBackend.__init__ request w)
    as (v & inputs & evs & Hcli & Hevs).
  run_slack. destruct (requests_importable w); cbn; [|by repeat constructor].
  destruct (http_post w _ _) as [status|e]; cbn.
  - case_bool_decide; [|destruct (Py.truthy (slack_token self))];
      cbn; rewrite Hcli; cbn; by repeat (apply Forall_cons; split; [done|]).
  - destruct (Py.is_Exception e); cbn; [rewrite Hcli; cbn|];
      by repeat (apply Forall_cons; split; [done|]).
Qed.

End Slack.

Lemma slack_defers_to_cli_witness :
  SlackApprovalBackend.request_approval Sample.slack_backend Sample.shell_request
    (Sample.world_offline [Typed "n"]) =
  (Py.Return (CLIApprovalBackend.rejected_via_cli 1700000000),
   set_operator (Sample.world_offline [Typed "n"]) [],
   SlackApprovalBackend.notice Sample.slack_backend Sample.shell_request
     (Sample.world_offline [Typed "n"])
   ++ shown Sample.shell_request ++ [TimeTime]).
Proof.
  rewrite (slack_defers_to_cli Sample.slack_backend Sample.shell_request
             (Sample.world_offline [Typed "n"])).
  - reflexivity.
  - reflexivity.
  - intros e [= <-]. reflexivity.
Defined.

(** C2, as stated, fails when [requests] is not installed: the backend answers
    REJECTED by "system" itself, the operator is not asked, and the
    Interactive-Prompt backend would have answered otherwise. *)
Lemma slack_without_requests_answers_itself :
  let w := Sample.world_without_requests [Typed "y"] in
  SlackApprovalBackend.request_approval Sample.slack_backend Sample.shell_request w =
    (Py.Return {| result := REJECTED; message := "Slack integration not available";
                  approved_by := "system"; timestamp := 1700000000 |},
     w, [Log ERROR "requests library required for Slack integration" []; TimeTime]) ∧
  CLIApprovalBackend.request_approval CLIApprovalBackend.__init__ Sample.shell_request w =
    (Py.Return {| result := APPROVED; message := "Approved via CLI";
                  approved_by := "human"; timestamp := 1700000000 |},
     set_operator w [], shown Sample.shell_request ++ [TimeTime]) ∧
  (SlackApprovalBackend.request_approval Sample.slack_backend Sample.shell_request w).1.1 ≠
  (CLIApprovalBackend.request_approval CLIApprovalBackend.__init__ Sample.shell_request w).1.1.
Proof. repeat split. discriminate. Qed.

(** ** The gateway *)

Section Gateway.

Import HITLApprovalService.

Variable self : HITLApprovalService.t.
Variables tool description : string.
Variable params : Parameters.
Variable step : Z.
Variable ctx : string.

Lemma request_approval_auto (w : World) :
  backend self = AUTO_APPROVE →
  HITLApprovalService.request_approval self tool description params step ctx w =
    (Py.Return {| result := APPROVED; message := "Auto-approved";
                  approved_by := "system"; timestamp := clock w |},
     w, [TimeTime]).
Proof.
  intros Hauto. unfold HITLApprovalService.request_approval.
  by rewrite bool_decide_eq_true_2.
Qed.

Lemma request_approval_not_required (w : World) :
  backend self ≠ AUTO_APPROVE →
  requires_approval self tool (get_tool_risk_level tool) = false →
  HITLApprovalService.request_approval self tool description params step ctx w =
    (Py.Return {| result := APPROVED; message := "Auto-approved (low risk)";
                  approved_by := "system"; timestamp := clock w |},
     w,
     classified tool ++
     [Log DEBUG "Tool {tool_name} does not require approval" [AStr tool]; TimeTime]).
Proof.
  intros Hbackend Hnot. unfold HITLApprovalService.request_approval.
  rewrite bool_decide_eq_false_2 by done. run. by rewrite Hnot.
Qed.

(** The delegation to the backend, event by event. *)
Lemma request_via_backend_events (req : ApprovalRequest) (w : World) :
  request_via_backend self req w =
    let '(r, w', evs) := approver_request_approval (approver self) req w in
    (r, w',
     [Log INFO "Requesting approval for {tool_name} (risk: {risk_level})"
        [AStr (tool_name req); AStr (risk_level req)];
      ApproverRequestApproval req] ++ evs ++
     match r with
     | Py.Return response =>
         [Log INFO "Approval decision: {response.result} by {response.approved_by}"
            [AResult (result response); AStr (approved_by response)]]
     | Py.Raise _ => []
     end).
Proof.
  unfold request_via_backend. run; cbn.
  destruct (approver_request_approval _ _ _) as [[[response|e] w'] evs]; cbn; [done|].
  by rewrite app_nil_r.
Qed.

(** The backends make no call of the gateway's. *)
Lemma approver_events (a : option Approver) (req : ApprovalRequest) (w : World) :
  Forall (λ ev, backend_event ev = true) (approver_request_approval a req w).2.
Proof.
  unfold approver_request_approval. destruct a as [[b|b]|].
  - destruct (request_approval_returns b req w) as (v & inputs & evs & -> & Hevs). exact Hevs.
  - apply slack_events.
  - constructor.
Qed.

Lemma request_approval_no_custom (w : World) :
  backend self ≠ AUTO_APPROVE →
  requires_approval self tool (get_tool_risk_level tool) = true →
  custom_approver self = None →
  let request := gateway_request tool description params step ctx in
  HITLApprovalService.request_approval self tool description params step ctx w =
    let '(r, w', evs) := request_via_backend self request w in
    (r, w', classified tool ++ evs).
Proof.
  intros Hbackend Hreq Hnone request. unfold HITLApprovalService.request_approval.
  rewrite bool_decide_eq_false_2 by done. run. rewrite Hreq, Hnone. cbn.
  change (mkApprovalRequest _ _ _ _ _ _) with request.
  by destruct (request_via_backend self request w) as [[r w'] evs].
Qed.

Lemma request_approval_custom (custom : ApprovalRequest → M ApprovalResponse) (w : World) :
  backend self ≠ AUTO_APPROVE →
  requires_approval self tool (get_tool_risk_level tool) = true →
  custom_approver self = Some custom →
  let request := gateway_request tool description params step ctx in
  let consulted := classified tool ++ [CustomApproverCall request] in
  HITLApprovalService.request_approval self tool description params step ctx w =
    match custom request w with
    | (Py.Return verdict, w1, evs) => (Py.Return verdict, w1, consulted ++ evs)
    | (Py.Raise e, w1, evs) =>
        if Py.is_Exception e then
          let '(r, w2, evs2) := request_via_backend self request w1 in
          (r, w2,
           consulted ++ evs ++
           [Log ERROR "Custom approver failed: {e}, falling back to default" [AExc e]] ++
           evs2)
        else (Py.Raise e, w1, consulted ++ evs)
    end.
Proof.
  intros Hbackend Hreq Hcustom request consulted.
  unfold HITLApprovalService.request_approval.
  rewrite bool_decide_eq_false_2 by done. run. rewrite Hreq, Hcustom. cbn.
  change (mkApprovalRequest _ _ _ _ _ _) with request.
  destruct (custom request w) as [[[verdict|e] w1] evs]; cbn.
  - by rewrite !app_nil_r.
  - destruct (Py.is_Exception e); cbn; [|done].
    destruct (request_via_backend self request w1) as [[r w2] evs2].
    subst consulted. cbn. by rewrite <- app_assoc.
Qed.

End Gateway.

(** A service built by [__init__] has a backend to call unless it is
    AUTO_APPROVE, and the Slack backend is refused without a webhook URL. *)
Lemma init_approver (backend : ApprovalBackend) (required : option (gset string))
    (min_level : string) (url token : option string)
    (custom : option (ApprovalRequest → M ApprovalResponse)) (w w' : World)
    (self : HITLApprovalService.t) (evs : list Event) :
  HITLApprovalService.__init__ backend required min_level url token custom w =
    (Py.Return self, w', evs) →
  HITLApprovalService.backend self = backend ∧
  HITLApprovalService.require_approval_for self = required ∧
  HITLApprovalService.min_risk_level self = min_level ∧
  HITLApprovalService.custom_approver self = custom ∧
  (HITLApprovalService.approver self = None ↔ backend = AUTO_APPROVE) ∧
  (backend = SLACK → Py.truthy url = true).
Proof.
  unfold HITLApprovalService.__init__. run.
  destruct backend; cbn; try destruct (Py.truthy url); cbn;
    intros [= <- _ _]; cbn; by repeat split.
Qed.


(** C4: with the AUTO_APPROVE backend, whatever the tool, its parameters and
    the policy, [request_approval] answers APPROVED by "system" at once; reading
    the clock is the only call it makes: no classification, no policy, no
    custom approver and no backend. *)
Theorem auto_approve_short_circuits
    (self : HITLApprovalService.t) (tool description : string) (params : Parameters)
    (step : Z) (ctx : string) (w : World) :
  HITLApprovalService.backend self = AUTO_APPROVE →
  HITLApprovalService.request_approval self tool description params step ctx w =
    (Py.Return {| result := APPROVED; message := "Auto-approved";
                  approved_by := "system"; timestamp := clock w |},
     w, [TimeTime]).
Proof. apply request_approval_auto. Qed.

Lemma auto_approve_short_circuits_witness :
  HITLApprovalService.request_approval
    (Sample.auto_service (Some Sample.deny_all)) "shell_tool" "run cmd"
    [("command", "dir")] 2 "" (Sample.world [CtrlC]) =
    (Py.Return {| result := APPROVED; message := "Auto-approved";
                  approved_by := "system"; timestamp := 1700000000 |},
     Sample.world [CtrlC], [TimeTime]).
Proof.
  apply (auto_approve_short_circuits (Sample.auto_service (Some Sample.deny_all))).
  reflexivity.
Defined.

(** C5, as the code has it: when the backend is not AUTO_APPROVE and the policy
    does not require consultation, [request_approval] answers APPROVED by
    "system" without calling the custom approver or the backend, with a message
    that differs from the one of the AUTO_APPROVE path.  When the policy does
    require consultation, no custom approver is set and the service has a
    backend, the gateway calls the backend's [request_approval] once, on the
    request it built, and returns what that call returns; the terminal backend
    enters its own [request_approval] once more for every time it shows the
    details. *)
Theorem below_threshold_or_dispatch_once
    (self : HITLApprovalService.t) (tool description : string) (params : Parameters)
    (step : Z) (ctx : string) (w : World) :
  HITLApprovalService.backend self ≠ AUTO_APPROVE →
  (HITLApprovalService.requires_approval self tool (get_tool_risk_level tool) = false →
   ∃ v evs,
     HITLApprovalService.request_approval self tool description params step ctx w =
       (Py.Return v, w, evs) ∧
     evs = [GetToolRiskLevel tool; RequiresApproval tool (get_tool_risk_level tool);
            Log DEBUG "Tool {tool_name} does not require approval" [AStr tool];
            TimeTime] ∧
     result v = APPROVED ∧ approved_by v = "system" ∧
     message v = "Auto-approved (low risk)" ∧
     ∀ auto w2 v2 w3 evs3,
       HITLApprovalService.backend auto = AUTO_APPROVE →
       HITLApprovalService.request_approval auto tool description params step ctx w2 =
         (Py.Return v2, w3, evs3) →
       message v2 ≠ message v) ∧
  (HITLApprovalService.requires_approval self tool (get_tool_risk_level tool) = true →
   HITLApprovalService.custom_approver self = None →
   ∀ a, HITLApprovalService.approver self = Some a →
   let request := gateway_request tool description params step ctx in
   let '(r, w', evs) :=
     match a with
     | HITLApprovalService.CLIApprover b => CLIApprovalBackend.request_approval b request w
     | HITLApprovalService.SlackApprover b => SlackApprovalBackend.request_approval b request w
     end in
   HITLApprovalService.request_approval self tool description params step ctx w =
     (r, w',
      [GetToolRiskLevel tool; RequiresApproval tool (get_tool_risk_level tool);
       Log INFO "Requesting approval for {tool_name} (risk: {risk_level})"
         [AStr tool; AStr (get_tool_risk_level tool)];
       ApproverRequestApproval request] ++ evs ++
      match r with
      | Py.Return response =>
          [Log INFO "Approval decision: {response.result} by {response.approved_by}"
             [AResult (result response); AStr (approved_by response)]]
      | Py.Raise _ => []
      end) ∧
   (∀ b, a = HITLApprovalService.CLIApprover b →
         count_events is_panel evs = S (count_events is_full_parameters evs))).
Proof.
  intros Hbackend. split.
  - intros Hnot. eexists _, _. split; [by apply request_approval_not_required|].
    repeat split.
    intros auto w2 v2 w3 evs3 Hauto Heq.
    rewrite (request_approval_auto auto tool description params step ctx w2 Hauto) in Heq.
    by injection Heq as <- _ _.
  - intros Hreq Hnone a Happrover request.
    rewrite (request_approval_no_custom self tool description params step ctx w)
      by done.
    cbv zeta. rewrite request_via_backend_events, Happrover.
    unfold HITLApprovalService.approver_request_approval. fold request.
    destruct a as [b|b].
    + pose proof (request_approval_entries b request
                    (S (List.length (operator w))) w ltac:(lia)) as Hentries.
      destruct (CLIApprovalBackend.request_approval b request w) as [[r w'] evs].
      split; [done|]. by intros b' _.
    + destruct (SlackApprovalBackend.request_approval b request w) as [[r w'] evs].
      split; [done|]. by intros b' [=].
Qed.

Lemma below_threshold_or_dispatch_once_witness :
  (∃ v evs,
     HITLApprovalService.request_approval (Sample.cli_service None) "scroll_tool"
       "scroll page" [] 1 "" (Sample.world [Typed "n"]) =
       (Py.Return v, Sample.world [Typed "n"], evs) ∧
     result v = APPROVED ∧ approved_by v = "system") ∧
  HITLApprovalService.request_approval (Sample.cli_service None) "shell_tool"
    "run cmd" [("command", "dir")] 2 "" (Sample.world [Typed "n"]) =
    (Py.Return (CLIApprovalBackend.rejected_via_cli 1700000000),
     set_operator (Sample.world [Typed "n"]) [],
     [GetToolRiskLevel "shell_tool"; RequiresApproval "shell_tool" "critical";
      Log INFO "Requesting approval for {tool_name} (risk: {risk_level})"
        [AStr "shell_tool"; AStr "critical"];
      ApproverRequestApproval Sample.shell_request]
     ++ (shown Sample.shell_request ++ [TimeTime]) ++
     [Log INFO "Approval decision: {response.result} by {response.approved_by}"
        [AResult REJECTED; AStr "human"]]).
Proof.
  split.
  - destruct (below_threshold_or_dispatch_once (Sample.cli_service None) "scroll_tool"
                "scroll page" [] 1 "" (Sample.world [Typed "n"])) as [Hbelow _];
      [discriminate|].
    destruct Hbelow as (v & evs & Heq & _ & Hres & Hby & _); [reflexivity|].
    by exists v, evs.
  - destruct (below_threshold_or_dispatch_once (Sample.cli_service None) "shell_tool"
                "run cmd" [("command", "dir")] 2 "" (Sample.world [Typed "n"]))
      as [_ Honce]; [discriminate|].
    exact (proj1 (Honce eq_refl eq_refl
                    (HITLApprovalService.CLIApprover CLIApprovalBackend.__init__) eq_refl)).
Defined.

(** C5, as stated, fails when the operator asks for the details: the terminal
    backend calls its own [request_approval] again, so for the script "d", "y"
    the backend's [request_approval] is entered twice on one request for which
    the policy requires consultation and no custom approver is set. *)
Lemma backend_entered_again_after_details :
  let w := Sample.world [Typed "d"; Typed "y"] in
  HITLApprovalService.backend (Sample.cli_service None) ≠ AUTO_APPROVE ∧
  HITLApprovalService.requires_approval (Sample.cli_service None) "shell_tool"
    (get_tool_risk_level "shell_tool") = true ∧
  HITLApprovalService.custom_approver (Sample.cli_service None) = None ∧
  (HITLApprovalService.request_approval (Sample.cli_service None) "shell_tool" "run cmd"
     [("command", "dir")] 2 "" w).2 =
    [GetToolRiskLevel "shell_tool"; RequiresApproval "shell_tool" "critical";
     Log INFO "Requesting approval for {tool_name} (risk: {risk_level})"
       [AStr "shell_tool"; AStr "critical"];
     ApproverRequestApproval Sample.shell_request;
     ConsolePrint (CLIApprovalBackend.panel Sample.shell_request);
     PromptAsk ["y"; "n"; "d"] "y";
     ConsolePrint FullParametersTitle;
     ConsolePrint (FullParameters [("command", "dir")]);
     ConsolePrint (CLIApprovalBackend.panel Sample.shell_request);
     PromptAsk ["y"; "n"; "d"] "y";
     TimeTime;
     Log INFO "Approval decision: {response.result} by {response.approved_by}"
       [AResult APPROVED; AStr "human"]] ∧
  count_events is_panel
    (HITLApprovalService.request_approval (Sample.cli_service None) "shell_tool" "run cmd"
       [("command", "dir")] 2 "" w).2 = 2%nat.
Proof. repeat split. discriminate. Qed.

(** C7: with an explicit required-set, [requires_approval] is membership of the
    tool name in the set; the tier plays no part, so a critical tool that is not
    in the set requires no approval and is auto-approved. *)
Theorem requires_approval_by_explicit_set
    (self : HITLApprovalService.t) (required : gset string) :
  HITLApprovalService.require_approval_for self = Some required →
  (∀ tool level, HITLApprovalService.requires_approval self tool level = true ↔ tool ∈ required) ∧
  (∀ tool level1 level2,
     HITLApprovalService.requires_approval self tool level1 =
     HITLApprovalService.requires_approval self tool level2) ∧
  (∀ tool, tool ∉ required →
     HITLApprovalService.requires_approval self tool "critical" = false) ∧
  (∀ tool description params step ctx w,
     HITLApprovalService.backend self ≠ AUTO_APPROVE →
     get_tool_risk_level tool = "critical" → tool ∉ required →
     ∃ v evs,
       HITLApprovalService.request_approval self tool description params step ctx w =
         (Py.Return v, w, evs) ∧
       result v = APPROVED ∧ approved_by v = "system").
Proof.
  intros Hset.
  assert (Hmem : ∀ tool level,
            HITLApprovalService.requires_approval self tool level = py_in tool required).
  { intros tool level. unfold HITLApprovalService.requires_approval. by rewrite Hset. }
  split; [intros tool level; rewrite Hmem; apply py_in_true|].
  split; [intros tool level1 level2; by rewrite !Hmem|].
  split; [intros tool Hnot; rewrite Hmem; by apply py_in_false|].
  intros tool description params step ctx w Hbackend Hcritical Hnot.
  eexists _, _. split.
  - apply request_approval_not_required; [done|].
    rewrite Hmem. by apply py_in_false.
  - done.
Qed.

Lemma requires_approval_by_explicit_set_witness :
  HITLApprovalService.requires_approval Sample.listed_service "click_tool" "low" = true ∧
  HITLApprovalService.requires_approval Sample.listed_service "shell_tool" "critical" = false.
Proof.
  destruct (requires_approval_by_explicit_set Sample.listed_service
              {[ "click_tool"; "type_tool" ]} eq_refl) as (Hmem & _ & Habsent & _).
  split; [apply Hmem; set_solver | apply Habsent; set_solver].
Defined.

(** C1, as the code has it: when the backend is not AUTO_APPROVE, the policy
    requires consultation and a custom approver is set, the gateway calls the
    approver before any backend.  If the approver returns, its verdict is
    returned as it is and no backend is called.  If it raises an [Exception],
    the gateway logs the failure and returns what the configured backend
    answers for the same request. *)
Theorem custom_approver_consulted_first
    (self : HITLApprovalService.t) (tool description : string) (params : Parameters)
    (step : Z) (ctx : string) (custom : ApprovalRequest → M ApprovalResponse) (w : World) :
  HITLApprovalService.backend self ≠ AUTO_APPROVE →
  HITLApprovalService.requires_approval self tool (get_tool_risk_level tool) = true →
  HITLApprovalService.custom_approver self = Some custom →
  let request := gateway_request tool description params step ctx in
  let consulted := classified tool ++ [CustomApproverCall request] in
  match custom request w with
  | (Py.Return verdict, w1, evs) =>
      HITLApprovalService.request_approval self tool description params step ctx w =
        (Py.Return verdict, w1, consulted ++ evs)
  | (Py.Raise e, w1, evs) =>
      Py.is_Exception e = true →
      let '(r, w2, evs2) :=
        HITLApprovalService.approver_request_approval
          (HITLApprovalService.approver self) request w1 in
      HITLApprovalService.request_approval self tool description params step ctx w =
        (r, w2,
         consulted ++ evs ++
         [Log ERROR "Custom approver failed: {e}, falling back to default" [AExc e];
          Log INFO "Requesting approval for {tool_name} (risk: {risk_level})"
            [AStr tool; AStr (get_tool_risk_level tool)];
          ApproverRequestApproval request] ++ evs2 ++
         match r with
         | Py.Return response =>
             [Log INFO "Approval decision: {response.result} by {response.approved_by}"
                [AResult (result response); AStr (approved_by response)]]
         | Py.Raise _ => []
         end)
  end.
Proof.
  intros Hbackend Hreq Hcustom request consulted.
  rewrite (request_approval_custom self tool description params step ctx custom w)
    by done.
  cbv zeta. subst request consulted.
  destruct (custom _ w) as [[[verdict|e] w1] evs]; [done|].
  intros ->. rewrite request_via_backend_events.
  by destruct (HITLApprovalService.approver_request_approval _ _ _) as [[r w2] evs2].
Qed.

Lemma custom_approver_consulted_first_witness :
  HITLApprovalService.request_approval (Sample.cli_service (Some Sample.deny_all))
    "shell_tool" "run cmd" [("command", "dir")] 2 "" (Sample.world [Typed "y"]) =
    (Py.Return {| result := REJECTED; message := "Shell commands not allowed";
                  approved_by := "custom_policy"; timestamp := 0 |},
     Sample.world [Typed "y"],
     [GetToolRiskLevel "shell_tool"; RequiresApproval "shell_tool" "critical";
      CustomApproverCall Sample.shell_request]) ∧
  HITLApprovalService.request_approval (Sample.cli_service (Some Sample.broken_approver))
    "shell_tool" "run cmd" [("command", "dir")] 2 "" (Sample.world [Typed "n"]) =
    (Py.Return (CLIApprovalBackend.rejected_via_cli 1700000000),
     set_operator (Sample.world [Typed "n"]) [],
     [GetToolRiskLevel "shell_tool"; RequiresApproval "shell_tool" "critical";
      CustomApproverCall Sample.shell_request;
      Log ERROR "Custom approver failed: {e}, falling back to default"
        [AExc (Py.RuntimeError "policy server down")];
      Log INFO "Requesting approval for {tool_name} (risk: {risk_level})"
        [AStr "shell_tool"; AStr "critical"];
      ApproverRequestApproval Sample.shell_request]
     ++ shown Sample.shell_request ++
     [TimeTime;
      Log INFO "Approval decision: {response.result} by {response.approved_by}"
        [AResult REJECTED; AStr "human"]]).
Proof.
  split.
  - exact (custom_approver_consulted_first (Sample.cli_service (Some Sample.deny_all))
             "shell_tool" "run cmd" [("command", "dir")] 2 "" Sample.deny_all
             (Sample.world [Typed "y"])
             ltac:(discriminate) ltac:(reflexivity) ltac:(reflexivity)).
  - exact (custom_approver_consulted_first (Sample.cli_service (Some Sample.broken_approver))
             "shell_tool" "run cmd" [("command", "dir")] 2 "" Sample.broken_approver
             (Sample.world [Typed "n"])
             ltac:(discriminate) ltac:(reflexivity) ltac:(reflexivity)
             ltac:(reflexivity)).
Defined.

(** C1, as stated, fails in two places.  With the AUTO_APPROVE backend the
    custom approver is never called, although the policy requires consultation:
    an approver that rejects everything is overruled by APPROVED.  And an
    approver that raises [KeyboardInterrupt], which is no [Exception], is not
    caught: the gateway raises it and no backend is asked. *)
Lemma custom_approver_not_always_consulted :
  let w := Sample.world [Typed "y"] in
  (HITLApprovalService.requires_approval (Sample.auto_service (Some Sample.deny_all))
     "shell_tool" (get_tool_risk_level "shell_tool") = true ∧
   HITLApprovalService.custom_approver (Sample.auto_service (Some Sample.deny_all)) =
     Some Sample.deny_all ∧
   (Sample.deny_all Sample.shell_request w).1.1 =
     Py.Return {| result := REJECTED; message := "Shell commands not allowed";
                  approved_by := "custom_policy"; timestamp := 0 |} ∧
   HITLApprovalService.request_approval (Sample.auto_service (Some Sample.deny_all))
     "shell_tool" "run cmd" [("command", "dir")] 2 "" w =
     (Py.Return {| result := APPROVED; message := "Auto-approved";
                   approved_by := "system"; timestamp := 1700000000 |},
      w, [TimeTime])) ∧
  (HITLApprovalService.requires_approval
     (Sample.cli_service (Some Sample.interrupted_approver))
     "shell_tool" (get_tool_risk_level "shell_tool") = true ∧
   Sample.interrupted_approver Sample.shell_request w = (Py.Raise Py.KeyboardInterrupt, w, []) ∧
   HITLApprovalService.request_approval
     (Sample.cli_service (Some Sample.interrupted_approver))
     "shell_tool" "run cmd" [("command", "dir")] 2 "" w =
     (Py.Raise Py.KeyboardInterrupt, w,
      [GetToolRiskLevel "shell_tool"; RequiresApproval "shell_tool" "critical";
       CustomApproverCall Sample.shell_request])).
Proof. repeat split. Qed.

(** ** The execution gate *)





Section Gate.

Import Registry.

Variable Desktop : Type.
Variable self : Registry.t Desktop.
Variable tool_name : string.
Variable tool : Registry.Tool Desktop.
Variable desktop : option Desktop.
Variable step : Z.
Variable kwargs : Parameters.

Hypothesis Hfound : tools_registry self !! tool_name = Some tool.

Lemma execute_without_service (w : World) :
  hitl_service self = None →
  execute self tool_name desktop step kwargs w = run_tool tool desktop kwargs w.
Proof.
  intros Hnone. unfold execute. rewrite Hfound, Hnone. run; cbn.
  by destruct (run_tool tool desktop kwargs w) as [[r w'] evs].
Qed.

Lemma execute_with_service (service : HITLApprovalService.t) (w : World) :
  hitl_service self = Some service →
  execute self tool_name desktop step kwargs w =
    match HITLApprovalService.request_approval service tool_name (description tool)
            kwargs step ("Agent requesting to execute " +:+ tool_name) w with
    | (Py.Return response, w1, evs) =>
        match result response with
        | REJECTED =>
            (Py.Return {| is_success := false; content := None;
                          error := Some ("Tool execution rejected by human approval: "
                                         +:+ message response) |},
             w1,
             evs ++
             [Log WARNING
                "Tool execution rejected by HITL: {tool_name} - {approval_response.message}"
                [AStr tool_name; AStr (message response)]])
        | TIMEOUT =>
            (Py.Return {| is_success := false; content := None;
                          error := Some "Tool execution approval timed out" |},
             w1,
             evs ++ [Log WARNING "Tool execution timed out: {tool_name}" [AStr tool_name]])
        | APPROVED =>
            let '(r, w2, evs2) := run_tool tool desktop kwargs w1 in
            (r, w2,
             evs ++
             [Log INFO
                "Tool execution approved by {approval_response.approved_by}: {tool_name}"
                [AStr (approved_by response); AStr tool_name]] ++ evs2)
        end
    | (Py.Raise e, w1, evs) => (Py.Raise e, w1, evs)
    end.
Proof.
  intros Hsome. unfold execute. rewrite Hfound, Hsome. run; cbn.
  destruct (HITLApprovalService.request_approval _ _ _ _ _ _ _)
    as [[[response|e] w1] evs]; cbn; [|done].
  destruct (result response); cbn; try by rewrite app_nil_r.
  destruct (run_tool tool desktop kwargs w1) as [[r w2] evs2].
  by rewrite <- app_assoc.
Qed.


End Gate.




(** * Further properties *)

(** ** The prompt, line by line *)

Lemma choice_cases (s : string) :
  s ∈ approval_choices → s = "y" ∨ s = "n" ∨ s = "d".
Proof. unfold approval_choices. set_solver. Qed.

Lemma prompt_loop_skips (line : string) (rest : list OperatorEvent) :
  unrecognised line = true →
  prompt_loop approval_choices "y" (Typed line :: rest) =
  prompt_loop approval_choices "y" rest.
Proof.
  unfold unrecognised. intros [Hne Hno]%andb_true_iff. cbn [prompt_loop].
  apply negb_true_iff in Hne, Hno. by rewrite Hne, Hno.
Qed.

(** What one call of the prompt reads, and what it answers. *)
Lemma prompt_loop_reads (inputs : list OperatorEvent) :
  ∃ consumed rest r,
    inputs = consumed ++ rest ∧
    prompt_loop approval_choices "y" inputs = (r, rest) ∧
    match last consumed with
    | Some (Typed line) =>
        if affirms line then r = Py.Return "y"
        else if declines line then r = Py.Return "n"
        else if asks_details line then r = Py.Return "d"
        else r = Py.Raise Py.EOFError ∧ rest = []
    | Some CtrlC => r = Py.Raise Py.KeyboardInterrupt
    | Some EndOfInput => r = Py.Raise Py.EOFError
    | None => r = Py.Raise Py.EOFError ∧ rest = []
    end.
Proof.
  induction inputs as [|[line| |] more IH].
  - by exists [], [], (Py.Raise Py.EOFError).
  - destruct (String.eqb line "") eqn:Hempty.
    { exists [Typed line], more, (Py.Return "y"). cbn. unfold affirms.
      by rewrite Hempty. }
    destruct (bool_decide (Py.strip line ∈ approval_choices)) eqn:Hchoice.
    { exists [Typed line], more, (Py.Return (Py.strip line)).
      cbn. unfold affirms, declines, asks_details. rewrite Hempty, Hchoice. cbn.
      apply bool_decide_eq_true, choice_cases in Hchoice as [->| [->| ->]]; by cbn. }
    destruct IH as (consumed & rest & r & -> & Hloop & Hlast).
    exists (Typed line :: consumed), rest, r. split; [done|]. split.
    { rewrite prompt_loop_skips; [done|]. unfold unrecognised. by rewrite Hempty, Hchoice. }
    rewrite last_cons. destruct (last consumed) as [ev|]; [done|].
    unfold affirms, declines, asks_details. rewrite Hempty. cbn.
    destruct Hlast as [-> ->].
    assert (Hnot : Py.strip line ∉ approval_choices) by (by apply bool_decide_eq_false in Hchoice).
    unfold approval_choices in Hnot.
    destruct (String.eqb_spec (Py.strip line) "y"); [set_solver|].
    destruct (String.eqb_spec (Py.strip line) "n"); [set_solver|].
    destruct (String.eqb_spec (Py.strip line) "d"); [set_solver|]. done.
  - by exists [CtrlC], more, (Py.Raise Py.KeyboardInterrupt).
  - by exists [EndOfInput], more, (Py.Raise Py.EOFError).
Qed.

(** ** The Interactive-Prompt backend, over every script of the operator *)

(** [strip] removes the white space of [str.strip()]: the control characters
    and the spaces that are written on more than one byte as well. *)
Lemma strip_samples :
  Py.strip (String (ascii_of_nat 194) (String (ascii_of_nat 160) "y") +:+
            String (ascii_of_nat 31) "") = "y" ∧
  Py.strip (String (ascii_of_nat 226) (String (ascii_of_nat 128) (String (ascii_of_nat 131) " n")) +:+
            String (ascii_of_nat 227) (String (ascii_of_nat 128) (String (ascii_of_nat 128) ""))) = "n" ∧
  Py.strip (String (ascii_of_nat 9) "a b" +:+ String (ascii_of_nat 10) "") = "a b" ∧
  affirms (String (ascii_of_nat 194) (String (ascii_of_nat 160) "y")) = true.
Proof. by vm_compute. Qed.

Lemma verdict_for_app (c1 c2 : list OperatorEvent) (line : string) (now : Z) :
  last c1 = Some (Typed line) → affirms line = false → declines line = false →
  verdict_for (c1 ++ c2) now = verdict_for c2 now.
Proof.
  intros Hlast Hy Hn. unfold verdict_for. rewrite last_app.
  destruct (last c2) as [ev|]; [done|]. by rewrite Hlast, Hy, Hn.
Qed.

Lemma cli_verdict_bounded (self : CLIApprovalBackend.t) (request : ApprovalRequest)
    (n : nat) (w : World) :
  (List.length (operator w) < n)%nat →
  ∃ consumed rest evs,
    operator w = consumed ++ rest ∧
    CLIApprovalBackend.request_approval self request w =
      (Py.Return (verdict_for consumed (clock w)), set_operator w rest, evs) ∧
    Forall (λ ev, terminal_event ev = true) evs.
Proof.
  revert w. induction n as [|n IH]; intros w Hlen; [lia|].
  destruct (prompt_loop_reads (operator w)) as (c1 & rest1 & r & Hsplit & Hloop & Hlast).
  rewrite request_approval_unfold, Hloop.
  destruct (last c1) as [[line| |]|] eqn:Hc1.
  - destruct (affirms line) eqn:Hy; [subst r|destruct (declines line) eqn:Hn; [subst r|]].
    + exists c1, rest1, (shown request ++ [TimeTime]). unfold verdict_for.
      rewrite Hc1, Hy. split; [done|]. split; [done|]. by repeat constructor.
    + exists c1, rest1, (shown request ++ [TimeTime]). unfold verdict_for.
      rewrite Hc1, Hy, Hn. split; [done|]. split; [done|]. by repeat constructor.
    + destruct (asks_details line) eqn:Hd; [subst r|destruct Hlast as [-> ->]].
      * assert (c1 ≠ []) as Hne by (intros ->; discriminate).
        destruct (IH (set_operator w rest1)) as (c2 & rest2 & evs & Hsplit2 & -> & Hevs).
        { cbn. rewrite Hsplit, length_app in Hlen. destruct c1; [done|]. cbn in Hlen. lia. }
        cbn in Hsplit2. exists (c1 ++ c2), rest2, (shown request ++ details request ++ evs).
        split; [by rewrite Hsplit, Hsplit2, app_assoc|].
        rewrite (verdict_for_app c1 c2 line) by done.
        split; [done|]. by repeat (apply Forall_cons; split; [done|]).
      * exists c1, []. eexists. unfold verdict_for. rewrite Hc1, Hy, Hn.
        split; [done|]. split; [done|]. by repeat constructor.
  - subst r. exists c1, rest1. eexists. unfold verdict_for. rewrite Hc1.
    split; [done|]. split; [done|]. by repeat constructor.
  - subst r. exists c1, rest1. eexists. unfold verdict_for. rewrite Hc1.
    split; [done|]. split; [done|]. by repeat constructor.
  - destruct Hlast as [-> ->]. exists c1, []. eexists. unfold verdict_for. rewrite Hc1.
    split; [done|]. split; [done|]. by repeat constructor.
Qed.

Lemma cli_run (self : CLIApprovalBackend.t) (request : ApprovalRequest) (w : World) :
  ∃ consumed rest evs,
    operator w = consumed ++ rest ∧
    CLIApprovalBackend.request_approval self request w =
      (Py.Return (verdict_for consumed (clock w)), set_operator w rest, evs) ∧
    Forall (λ ev, terminal_event ev = true) evs.
Proof. apply (cli_verdict_bounded self request (S (List.length (operator w)))). lia. Qed.

(** The verdict is APPROVED only after a line that affirms. *)
Lemma cli_approved_affirmed
    (self : CLIApprovalBackend.t) (request : ApprovalRequest) (w w' : World)
    (v : ApprovalResponse) (evs : list Event) :
  CLIApprovalBackend.request_approval self request w = (Py.Return v, w', evs) →
  result v = APPROVED →
  ∃ before line rest,
    operator w = before ++ Typed line :: rest ∧
    operator w' = rest ∧
    affirms line = true ∧
    v = CLIApprovalBackend.approved_via_cli (clock w).
Proof.
  intros Hrun Happroved.
  destruct (cli_run self request w) as (consumed & rest & evs' & Hsplit & Hrun' & _).
  rewrite Hrun in Hrun'. injection Hrun' as -> -> _.
  unfold verdict_for in Happroved |- *.
  destruct (last consumed) as [[line| |]|] eqn:Hlast; try discriminate.
  apply last_Some in Hlast as [before ->].
  destruct (affirms line) eqn:Hy.
  - exists before, line, rest. by rewrite Hsplit, <- app_assoc.
  - by destruct (declines line).
Qed.

(** X1: whenever the Interactive-Prompt backend returns a verdict, it has read a
    prefix of the operator's events and changed nothing else of the world; the
    verdict is decided by the last event it read: APPROVED after an empty line
    or "y", "Rejected via CLI" after "n", and "Interrupted by user" after
    Ctrl-C, the end of the input or a script that ends on another line; and all
    it did is print, prompt, log and read the clock. *)
Theorem cli_verdict_from_last_read
    (self : CLIApprovalBackend.t) (request : ApprovalRequest) (w w' : World)
    (v : ApprovalResponse) (evs : list Event) :
  CLIApprovalBackend.request_approval self request w = (Py.Return v, w', evs) →
  ∃ consumed rest,
    operator w = consumed ++ rest ∧
    w' = set_operator w rest ∧
    v = verdict_for consumed (clock w) ∧
    Forall (λ ev, terminal_event ev = true) evs.
Proof.
  intros Hrun.
  destruct (cli_run self request w) as (consumed & rest & evs' & Hsplit & Hrun' & Hevs).
  rewrite Hrun in Hrun'. injection Hrun' as -> -> ->. by exists consumed, rest.
Qed.

Lemma cli_verdict_from_last_read_witness :
  ∃ consumed rest,
    [Typed "d"; Typed "no"; Typed " n "; Typed "y"] = consumed ++ rest ∧
    set_operator (Sample.world [Typed "d"; Typed "no"; Typed " n "; Typed "y"]) [Typed "y"] =
      set_operator (Sample.world [Typed "d"; Typed "no"; Typed " n "; Typed "y"]) rest ∧
    CLIApprovalBackend.rejected_via_cli 1700000000 = verdict_for consumed 1700000000.
Proof.
  destruct (cli_verdict_from_last_read CLIApprovalBackend.__init__ Sample.shell_request
              (Sample.world [Typed "d"; Typed "no"; Typed " n "; Typed "y"])
              (set_operator (Sample.world [Typed "d"; Typed "no"; Typed " n "; Typed "y"])
                 [Typed "y"])
              (CLIApprovalBackend.rejected_via_cli 1700000000)
              (shown Sample.shell_request ++ details Sample.shell_request ++
               shown Sample.shell_request ++ [TimeTime]))
    as (consumed & rest & Hsplit & Hworld & Hverdict & _); [reflexivity|].
  by exists consumed, rest.
Defined.

(** X2: the Interactive-Prompt backend answers APPROVED only when the last line
    it read from the operator is empty or is "y": an interruption, the end of the
    input, "n" or any other text never approves. *)
Theorem cli_approves_only_on_affirmation
    (self : CLIApprovalBackend.t) (request : ApprovalRequest) (w w' : World)
    (v : ApprovalResponse) (evs : list Event) :
  CLIApprovalBackend.request_approval self request w = (Py.Return v, w', evs) →
  result v = APPROVED →
  ∃ before line rest,
    operator w = before ++ Typed line :: rest ∧
    operator w' = rest ∧
    affirms line = true ∧
    v = CLIApprovalBackend.approved_via_cli (clock w).
Proof. apply cli_approved_affirmed. Qed.

Lemma cli_approves_only_on_affirmation_witness :
  ∃ before line rest,
    [Typed "d"; Typed "what?"; Typed " y "; CtrlC] = before ++ Typed line :: rest ∧
    rest = [CtrlC] ∧ affirms line = true.
Proof.
  destruct (cli_approves_only_on_affirmation CLIApprovalBackend.__init__
              Sample.shell_request
              (Sample.world [Typed "d"; Typed "what?"; Typed " y "; CtrlC])
              (set_operator (Sample.world [Typed "d"; Typed "what?"; Typed " y "; CtrlC])
                 [CtrlC])
              (CLIApprovalBackend.approved_via_cli 1700000000)
              (shown Sample.shell_request ++ details Sample.shell_request ++
               shown Sample.shell_request ++ [TimeTime]))
    as (before & line & rest & Hsplit & Hrest & Hy & _); [reflexivity | reflexivity |].
  by exists before, line, rest.
Defined.

(** ** What is shown to the operator and sent to Slack *)






(** X7: the Slack message always opens with the header, the tool and risk, the
    description and the parameters; the context block is there exactly when the
    context is not empty, and the buttons exactly when a non-empty token is set. *)
Theorem slack_message_blocks (self : SlackApprovalBackend.t) (request : ApprovalRequest) :
  take 4 (blocks (SlackApprovalBackend.slack_message self request)) =
    [Header (step_number request);
     ToolAndRisk (tool_name request)
       (SlackApprovalBackend.risk_emoji (risk_level request))
       (Py.upper (risk_level request));
     DescriptionBlock (tool_description request);
     ParametersBlock (parameters request)] ∧
  (ContextBlock (context request) ∈ blocks (SlackApprovalBackend.slack_message self request)
     ↔ context request ≠ "") ∧
  (existsb is_action_buttons (blocks (SlackApprovalBackend.slack_message self request)) = true
     ↔ ∃ token, SlackApprovalBackend.slack_token self = Some token ∧ token ≠ "") ∧
  (4 ≤ List.length (blocks (SlackApprovalBackend.slack_message self request)) ≤ 6)%nat.
Proof.
  unfold SlackApprovalBackend.slack_message. cbn [blocks].
  destruct (String.eqb_spec (context request) "") as [Hctx|Hctx];
    destruct (SlackApprovalBackend.slack_token self) as [token|] eqn:Htoken; cbn;
    try destruct (String.eqb_spec token "") as [Htok|Htok]; cbn;
    repeat split; try done; try lia; try set_solver;
    try (intros (t & [= <-] & Hne); done); try (intros _; by exists token).
Qed.

(** ** The Webhook-Notify backend, over every world *)

Section SlackRuns.

Variable self : SlackApprovalBackend.t.
Variable request : ApprovalRequest.

Import SlackApprovalBackend.

(** The ways a call of the backend can end. *)
Lemma slack_cases (w : World) :
  let post := RequestsPost (webhook_url self) (slack_message self request) 10 in
  (requests_importable w = false ∧
   SlackApprovalBackend.request_approval self request w =
     (Py.Return (not_available (clock w)), w,
      [Log ERROR "requests library required for Slack integration" []; TimeTime])) ∨
  (requests_importable w = true ∧
   ∃ e, http_post w (webhook_url self) (slack_message self request) = Py.Raise e ∧
        Py.is_Exception e = false ∧
        SlackApprovalBackend.request_approval self request w = (Py.Raise e, w, [post])) ∨
  (requests_importable w = true ∧
   ∃ notes r w' evs,
     CLIApprovalBackend.request_approval CLIApprovalBackend.__init__ request w = (r, w', evs) ∧
     SlackApprovalBackend.request_approval self request w = (r, w', post :: notes ++ evs) ∧
     Forall (λ ev, terminal_event ev = true) notes).
Proof.
  intros post. destruct (requests_importable w) eqn:Himport.
  2:{ left. split; [done|]. by apply slack_without_requests. }
  right.
  destruct (cli_run CLIApprovalBackend.__init__ request w)
    as (consumed & rest & evs & _ & Hcli & _).
  unfold SlackApprovalBackend.request_approval, import_requests, requests_post,
    raise_for_status.
  run; cbn. rewrite Himport. cbn.
  destruct (http_post w (webhook_url self) (slack_message self request))
    as [status|e] eqn:Hpost; cbn.
  - right. split; [done|].
    case_bool_decide; [|destruct (Py.truthy (slack_token self))];
      cbn; rewrite Hcli; cbn.
    + exists [Log ERROR "Failed to send Slack message: {e}" [AExc (Py.HTTPError status)]].
      eexists _, _, _. split; [done|]. split; [done|]. by repeat constructor.
    + exists [Log INFO "Approval request sent to Slack" []; ConsolePrint WaitingForSlack;
              Log WARNING
                "Interactive Slack approval not yet implemented, falling back to CLI" []].
      eexists _, _, _. split; [done|]. split; [done|]. by repeat constructor.
    + exists [Log INFO "Approval request sent to Slack" [];
              ConsolePrint SlackNotificationSent].
      eexists _, _, _. split; [done|]. split; [done|]. by repeat constructor.
  - destruct (Py.is_Exception e) eqn:Hexc; cbn.
    + right. split; [done|]. rewrite Hcli. cbn.
      exists [Log ERROR "Failed to send Slack message: {e}" [AExc e]].
      eexists _, _, _. split; [done|]. split; [done|]. by repeat constructor.
    + left. split; [done|]. by exists e.
Qed.

End SlackRuns.

Lemma terminal_events_no_post (evs : list Event) :
  Forall (λ ev, terminal_event ev = true) evs → count_events is_post evs = 0%nat.
Proof.
  intros H. apply count_events_none. eapply Forall_impl; [exact H|]. by intros [].
Qed.

(** X8: the Webhook-Notify backend posts exactly once, to the configured URL
    with a timeout of 10, before anything else, when [requests] can be imported,
    and never posts when it cannot. *)
Theorem slack_posts_once
    (self : SlackApprovalBackend.t) (request : ApprovalRequest) (w : World) :
  count_events is_post (SlackApprovalBackend.request_approval self request w).2 =
    (if requests_importable w then 1 else 0)%nat ∧
  (requests_importable w = true →
   head (SlackApprovalBackend.request_approval self request w).2 =
     Some (RequestsPost (SlackApprovalBackend.webhook_url self)
             (SlackApprovalBackend.slack_message self request) 10)).
Proof.
  destruct (slack_cases self request w)
    as [[Himport ->] | [(Himport & e & _ & _ & ->) | (Himport & notes & r & w' & evs & Hcli & -> & Hnotes)]];
    rewrite Himport; cbn [snd]; try by split.
  split; [|done].
  destruct (cli_run CLIApprovalBackend.__init__ request w) as (c & rest & evs' & _ & Hcli' & Hevs).
  rewrite Hcli in Hcli'. injection Hcli' as _ _ Hsame. rewrite <- Hsame in Hevs.
  change (count_events is_post (?x :: notes ++ evs))
    with (S (count_events is_post (notes ++ evs))).
  by rewrite count_events_app, !terminal_events_no_post.
Qed.

Lemma slack_posts_once_witness :
  head (SlackApprovalBackend.request_approval Sample.slack_backend Sample.shell_request
          (world_with_status 500 [Typed "n"])).2 =
    Some (RequestsPost "https://hooks.slack.com/test"
            (SlackApprovalBackend.slack_message Sample.slack_backend Sample.shell_request) 10).
Proof.
  destruct (slack_posts_once Sample.slack_backend Sample.shell_request
              (world_with_status 500 [Typed "n"])) as [_ Hhead].
  apply Hhead. reflexivity.
Defined.

(** X9: when the post raises something that is no [Exception], such as
    [KeyboardInterrupt], the Webhook-Notify backend raises it: nothing is logged,
    the operator is not asked and no verdict is given. *)
Theorem slack_interrupted_post_propagates
    (self : SlackApprovalBackend.t) (request : ApprovalRequest) (w : World) (e : Py.Exc) :
  requests_importable w = true →
  http_post w (SlackApprovalBackend.webhook_url self)
    (SlackApprovalBackend.slack_message self request) = Py.Raise e →
  Py.is_Exception e = false →
  SlackApprovalBackend.request_approval self request w =
    (Py.Raise e, w,
     [RequestsPost (SlackApprovalBackend.webhook_url self)
        (SlackApprovalBackend.slack_message self request) 10]).
Proof.
  intros Himport Hpost Hexc.
  unfold SlackApprovalBackend.request_approval, SlackApprovalBackend.import_requests,
    SlackApprovalBackend.requests_post.
  run; cbn. by rewrite Himport, Hpost, Hexc.
Qed.

Lemma slack_interrupted_post_propagates_witness :
  SlackApprovalBackend.request_approval Sample.slack_backend Sample.shell_request
    (world_interrupted_post [Typed "y"]) =
    (Py.Raise Py.KeyboardInterrupt, world_interrupted_post [Typed "y"],
     [RequestsPost "https://hooks.slack.com/test"
        (SlackApprovalBackend.slack_message Sample.slack_backend Sample.shell_request) 10]).
Proof.
  apply (slack_interrupted_post_propagates Sample.slack_backend Sample.shell_request
           (world_interrupted_post [Typed "y"]) Py.KeyboardInterrupt); reflexivity.
Defined.

(** ** The gateway, end to end *)

(** X10: without a custom approver, a tool for which the policy requires
    consultation is APPROVED only by the operator: whatever the backend (terminal
    or Slack) and whatever the endpoint does, an APPROVED verdict is by "human"
    and follows a line of the operator that is empty or "y". *)
Theorem gateway_approval_needs_affirmation
    (self : HITLApprovalService.t) (tool description : string) (params : Parameters)
    (step : Z) (ctx : string) (w w' : World) (v : ApprovalResponse) (evs : list Event) :
  HITLApprovalService.backend self ≠ AUTO_APPROVE →
  HITLApprovalService.requires_approval self tool (get_tool_risk_level tool) = true →
  HITLApprovalService.custom_approver self = None →
  HITLApprovalService.request_approval self tool description params step ctx w =
    (Py.Return v, w', evs) →
  result v = APPROVED →
  approved_by v = "human" ∧
  ∃ before line rest,
    operator w = before ++ Typed line :: rest ∧ operator w' = rest ∧ affirms line = true.
Proof.
  intros Hbackend Hreq Hnone Hrun Happroved.
  rewrite (request_approval_no_custom self tool description params step ctx w) in Hrun
    by done.
  cbv zeta in Hrun. rewrite request_via_backend_events in Hrun.
  set (request := gateway_request tool description params step ctx) in *.
  unfold HITLApprovalService.approver_request_approval in Hrun.
  destruct (HITLApprovalService.approver self) as [[b|b]|].
  - destruct (CLIApprovalBackend.request_approval b request w) as [[r w1] evs1] eqn:Hcli.
    injection Hrun as -> -> _.
    destruct (cli_approved_affirmed b request w w' v evs1 Hcli Happroved)
      as (before & line & rest & Hsplit & Hrest & Hy & ->).
    split; [done|]. by exists before, line, rest.
  - destruct (slack_cases b request w)
      as [[_ Hs] | [(_ & e & _ & _ & Hs) | (_ & notes & r & w1 & evs1 & Hcli & Hs & _)]];
      rewrite Hs in Hrun.
    + injection Hrun as <- _ _. discriminate.
    + discriminate.
    + injection Hrun as -> -> _.
      destruct (cli_approved_affirmed _ request w w' v evs1 Hcli Happroved)
        as (before & line & rest & Hsplit & Hrest & Hy & ->).
      split; [done|]. by exists before, line, rest.
  - discriminate.
Qed.

Lemma gateway_approval_needs_affirmation_witness :
  ∃ before line rest,
    [Typed "d"; Typed ""; Typed "n"] = before ++ Typed line :: rest ∧
    rest = [Typed "n"] ∧ affirms line = true.
Proof.
  destruct (gateway_approval_needs_affirmation (Sample.cli_service None) "shell_tool"
              "run cmd" [("command", "dir")] 2 ""
              (Sample.world [Typed "d"; Typed ""; Typed "n"])
              (set_operator (Sample.world [Typed "d"; Typed ""; Typed "n"]) [Typed "n"])
              (CLIApprovalBackend.approved_via_cli 1700000000)
              (HITLApprovalService.request_approval (Sample.cli_service None) "shell_tool"
                 "run cmd" [("command", "dir")] 2 ""
                 (Sample.world [Typed "d"; Typed ""; Typed "n"])).2)
    as (_ & before & line & rest & Hsplit & Hrest & Hy);
    [discriminate | reflexivity | reflexivity | reflexivity | reflexivity |].
  by exists before, line, rest.
Defined.

(** ** Building the gateway *)

(** Building the gateway fails, with [ValueError] and before anything is
    logged, exactly when the backend is SLACK and the webhook URL is missing or
    empty; otherwise it logs one line and returns a service whose approver is
    the terminal for CLI and for WEBHOOK, Slack for SLACK, and none for
    AUTO_APPROVE. *)
Lemma init_outcome
    (backend : ApprovalBackend) (required : option (gset string)) (min_level : string)
    (url token : option string) (custom : option (ApprovalRequest → M ApprovalResponse))
    (w : World) :
  if bool_decide (backend = SLACK) && negb (Py.truthy url) then
    HITLApprovalService.__init__ backend required min_level url token custom w =
      (Py.Raise (Py.ValueError "slack_webhook_url required for Slack backend"), w, [])
  else
    HITLApprovalService.__init__ backend required min_level url token custom w =
      (Py.Return
         {| HITLApprovalService.backend := backend;
            HITLApprovalService.require_approval_for := required;
            HITLApprovalService.min_risk_level := min_level;
            HITLApprovalService.custom_approver := custom;
            HITLApprovalService.approver :=
              match backend with
              | CLI | WEBHOOK =>
                  Some (HITLApprovalService.CLIApprover CLIApprovalBackend.__init__)
              | SLACK =>
                  Some (HITLApprovalService.SlackApprover
                          {| SlackApprovalBackend.webhook_url := default "" url;
                             SlackApprovalBackend.slack_token := token;
                             SlackApprovalBackend.timeout := 300 |})
              | AUTO_APPROVE => None
              end |},
       w,
       [Log INFO "HITL approval service initialized with backend: {backend}"
          [ABackend backend]]).
Proof.
  unfold HITLApprovalService.__init__. run.
  destruct backend; cbn; try done. by destruct (Py.truthy url).
Qed.

(** ** The policy at its edges *)

Lemma dict_get_risk_hierarchy (key : string) (dflt : Z) :
  dict_get risk_hierarchy key dflt =
    if String.eqb key "critical" then 4
    else if String.eqb key "high" then 3
    else if String.eqb key "medium" then 2
    else if String.eqb key "low" then 1
    else dflt.
Proof.
  unfold dict_get, risk_hierarchy. cbn [list_to_map foldr uncurry fst snd].
  destruct (String.eqb_spec key "critical") as [->|H1]; [done|].
  rewrite lookup_insert_ne by done.
  destruct (String.eqb_spec key "high") as [->|H2]; [done|].
  rewrite lookup_insert_ne by done.
  destruct (String.eqb_spec key "medium") as [->|H3]; [done|].
  rewrite lookup_insert_ne by done.
  destruct (String.eqb_spec key "low") as [->|H4]; [done|].
  by rewrite lookup_insert_ne.
Qed.

Lemma risk_hierarchy_unknown (key : string) (dflt : Z) :
  risk_hierarchy !! key = None → dict_get risk_hierarchy key dflt = dflt.
Proof. unfold dict_get. by intros ->. Qed.

Lemma dict_get_bounds (key : string) (dflt : Z) :
  1 ≤ dflt ≤ 4 → 1 ≤ dict_get risk_hierarchy key dflt ≤ 4.
Proof. rewrite dict_get_risk_hierarchy. repeat case_match; lia. Qed.

(** X12: under the threshold policy the two lookups are forgiving: a threshold
    that is none of the four names works as "high", and a tier that is none of
    them works as "medium". *)
Theorem requires_approval_defaults
    (self : HITLApprovalService.t) (tool level : string) :
  HITLApprovalService.require_approval_for self = None →
  (risk_hierarchy !! HITLApprovalService.min_risk_level self = None →
   HITLApprovalService.requires_approval self tool level =
     bool_decide (level = "critical" ∨ level = "high")) ∧
  (risk_hierarchy !! level = None →
   HITLApprovalService.requires_approval self tool level =
   HITLApprovalService.requires_approval self tool "medium").
Proof.
  intros Hnone. unfold HITLApprovalService.requires_approval. rewrite Hnone. split.
  - intros Hmin. rewrite (risk_hierarchy_unknown _ 3 Hmin). cbv zeta.
    rewrite dict_get_risk_hierarchy.
    destruct (String.eqb_spec level "critical") as [->|H1]; [done|].
    destruct (String.eqb_spec level "high") as [->|H2]; [done|].
    rewrite (bool_decide_eq_false_2 (level = "critical" ∨ level = "high")) by tauto.
    apply bool_decide_eq_false_2. repeat case_match; lia.
  - intros Hlevel. by rewrite (risk_hierarchy_unknown _ 2 Hlevel).
Qed.

Lemma requires_approval_defaults_witness :
  HITLApprovalService.requires_approval (service_with_threshold "HIGH")
    "click_tool" "medium" = false ∧
  HITLApprovalService.requires_approval (Sample.cli_service None) "x" "severe" =
  HITLApprovalService.requires_approval (Sample.cli_service None) "x" "medium".
Proof.
  split.
  - by rewrite (proj1 (requires_approval_defaults (service_with_threshold "HIGH")
                         "click_tool" "medium" eq_refl) eq_refl).
  - exact (proj2 (requires_approval_defaults (Sample.cli_service None) "x" "severe" eq_refl)
             eq_refl).
Defined.

(** X13: under the threshold policy a critical tier requires approval at every
    threshold, whatever the threshold string is, and the threshold "low"
    requires approval for every tier, known or not. *)
Theorem requires_approval_extremes
    (self : HITLApprovalService.t) (tool level : string) :
  HITLApprovalService.require_approval_for self = None →
  HITLApprovalService.requires_approval self tool "critical" = true ∧
  (HITLApprovalService.min_risk_level self = "low" →
   HITLApprovalService.requires_approval self tool level = true).
Proof.
  intros Hnone. unfold HITLApprovalService.requires_approval. rewrite Hnone. cbv zeta.
  split.
  - apply bool_decide_eq_true_2.
    pose proof (dict_get_bounds (HITLApprovalService.min_risk_level self) 3 ltac:(lia)).
    change (dict_get risk_hierarchy "critical" 2) with 4. lia.
  - intros ->. apply bool_decide_eq_true_2.
    pose proof (dict_get_bounds level 2 ltac:(lia)).
    change (dict_get risk_hierarchy "low" 3) with 1. lia.
Qed.

Lemma requires_approval_extremes_witness :
  HITLApprovalService.requires_approval (Sample.cli_service None) "shell_tool" "critical" = true.
Proof.
  exact (proj1 (requires_approval_extremes (Sample.cli_service None) "shell_tool" "low"
                  eq_refl)).
Defined.

(** X14: under the threshold policy a tool that is in none of the critical, high
    and medium sets is auto-approved by "system", without any backend or prompt,
    unless the threshold is "low". *)
Theorem unknown_tool_is_auto_approved
    (self : HITLApprovalService.t) (tool description : string) (params : Parameters)
    (step : Z) (ctx : string) (w : World) :
  HITLApprovalService.backend self ≠ AUTO_APPROVE →
  HITLApprovalService.require_approval_for self = None →
  HITLApprovalService.min_risk_level self ≠ "low" →
  tool ∉ CRITICAL_RISK_TOOLS ∪ HIGH_RISK_TOOLS ∪ MEDIUM_RISK_TOOLS →
  HITLApprovalService.request_approval self tool description params step ctx w =
    (Py.Return {| result := APPROVED; message := "Auto-approved (low risk)";
                  approved_by := "system"; timestamp := clock w |},
     w,
     [GetToolRiskLevel tool; RequiresApproval tool "low";
      Log DEBUG "Tool {tool_name} does not require approval" [AStr tool]; TimeTime]).
Proof.
  intros Hbackend Hnone Hmin Htool.
  assert (get_tool_risk_level tool = "low") as Hlow.
  { unfold get_tool_risk_level. apply risk_level_in_low; set_solver. }
  rewrite (request_approval_not_required self tool description params step ctx w Hbackend).
  - unfold classified. by rewrite Hlow.
  - rewrite Hlow. unfold HITLApprovalService.requires_approval. rewrite Hnone. cbv zeta.
    apply bool_decide_eq_false_2. change (dict_get risk_hierarchy "low" 2) with 1.
    rewrite dict_get_risk_hierarchy.
    destruct (String.eqb_spec (HITLApprovalService.min_risk_level self) "low"); [done|].
    repeat case_match; lia.
Qed.

Lemma unknown_tool_is_auto_approved_witness :
  HITLApprovalService.request_approval (Sample.cli_service None) "format_disk_tool"
    "wipe" [] 7 "" (Sample.world [Typed "n"]) =
    (Py.Return {| result := APPROVED; message := "Auto-approved (low risk)";
                  approved_by := "system"; timestamp := 1700000000 |},
     Sample.world [Typed "n"],
     [GetToolRiskLevel "format_disk_tool"; RequiresApproval "format_disk_tool" "low";
      Log DEBUG "Tool {tool_name} does not require approval" [AStr "format_disk_tool"];
      TimeTime]).
Proof.
  apply (unknown_tool_is_auto_approved (Sample.cli_service None) "format_disk_tool"
           "wipe" [] 7 "" (Sample.world [Typed "n"]));
    [discriminate | reflexivity | discriminate | by vm_compute].
Defined.

(** ** The registry *)

Section RegistryLookup.

Import Registry.

Variable Desktop : Type.

Lemma registry_snoc (tools : list (Tool Desktop)) (t : Tool Desktop) :
  registry (tools ++ [t]) = <[name t := t]> (registry tools).
Proof. unfold registry. by rewrite foldl_snoc. Qed.

Lemma registry_lookup_Some (tools : list (Tool Desktop)) (n : string) (t : Tool Desktop) :
  registry tools !! n = Some t → t ∈ tools ∧ name t = n.
Proof.
  induction tools as [|t' tools IH] using rev_ind; [done|].
  rewrite registry_snoc. destruct (decide (name t' = n)) as [<-|Hne].
  - rewrite lookup_insert_eq. intros [= <-]. set_solver.
  - rewrite lookup_insert_ne by done. intros [Hin Hname]%IH. set_solver.
Qed.

Lemma registry_lookup_None (tools : list (Tool Desktop)) (n : string) :
  n ∉ name <$> tools → registry tools !! n = None.
Proof.
  intros Hnot. destruct (registry tools !! n) as [t|] eqn:Hlookup; [|done].
  apply registry_lookup_Some in Hlookup as [Hin <-].
  destruct Hnot. by apply list_elem_of_fmap_2.
Qed.

Lemma registry_last_wins (before after : list (Tool Desktop)) (t : Tool Desktop) :
  (∀ t', t' ∈ after → name t' ≠ name t) →
  registry (before ++ t :: after) !! name t = Some t.
Proof.
  induction after as [|t' after IH] using rev_ind; intros Hafter.
  - by rewrite registry_snoc, lookup_insert_eq.
  - rewrite app_comm_cons, app_assoc, registry_snoc.
    rewrite lookup_insert_ne by (apply Hafter; set_solver).
    apply IH. intros t'' Hin. apply Hafter. set_solver.
Qed.

End RegistryLookup.

(** X15: the registry finds a tool by its name: a name that no tool bears is not
    found, a name that is found gives a tool of the list with that name, and
    when several tools share a name the last one of the list is the one found. *)
Theorem registry_finds_last_by_name (Desktop : Type) (tools : list (Registry.Tool Desktop)) :
  (∀ n, n ∉ Registry.name <$> tools → Registry.registry tools !! n = None) ∧
  (∀ n t, Registry.registry tools !! n = Some t → t ∈ tools ∧ Registry.name t = n) ∧
  (∀ before t after,
     tools = before ++ t :: after →
     (∀ t', t' ∈ after → Registry.name t' ≠ Registry.name t) →
     Registry.registry tools !! Registry.name t = Some t).
Proof.
  split; [apply registry_lookup_None|]. split; [apply registry_lookup_Some|].
  intros before t after -> Hafter. by apply registry_last_wins.
Qed.

Lemma registry_finds_last_by_name_witness :
  Registry.registry [Sample.shell_tool; shadowing_tool] !! "shell_tool" = Some shadowing_tool.
Proof.
  destruct (registry_finds_last_by_name unit [Sample.shell_tool; shadowing_tool])
    as (_ & _ & Hlast).
  apply (Hlast [Sample.shell_tool] shadowing_tool []); [reflexivity|].
  intros t' Hin. by apply elem_of_nil in Hin.
Defined.

(** X16: executing a name that no registered tool bears fails with "Tool '...'
    not found.": the approval service is not consulted, nothing is logged and
    nothing is invoked. *)
Theorem execute_unknown_tool
    (Desktop : Type) (tools : list (Registry.Tool Desktop))
    (service : option HITLApprovalService.t) (tool_name : string)
    (desktop : option Desktop) (step : Z) (kwargs : Parameters) (w : World) :
  tool_name ∉ Registry.name <$> tools →
  Registry.execute (Registry.__init__ tools service) tool_name desktop step kwargs w =
    (Py.Return {| Registry.is_success := false; Registry.content := None;
                  Registry.error := Some ("Tool '" +:+ tool_name +:+ "' not found.") |},
     w, []).
Proof.
  intros Hnot. unfold Registry.execute. cbn [Registry.tools_registry Registry.__init__].
  by rewrite registry_lookup_None.
Qed.

Lemma execute_unknown_tool_witness :
  Registry.execute (Sample.shell_registry (Some (Sample.cli_service None))) "shel_tool"
    None 1 [] (Sample.world [Typed "y"]) =
    (Py.Return {| Registry.is_success := false; Registry.content := None;
                  Registry.error := Some "Tool 'shel_tool' not found." |},
     Sample.world [Typed "y"], []).
Proof.
  apply (execute_unknown_tool unit [Sample.shell_tool] (Some (Sample.cli_service None))
           "shel_tool" None 1 [] (Sample.world [Typed "y"])).
  cbn. set_solver.
Defined.



(** X18: with the AUTO_APPROVE service the gate is open: [execute] runs the tool
    exactly as it does without a service, after reading the clock and logging
    the approval by "system". *)
Theorem execute_auto_approved
    (Desktop : Type) (self : Registry.t Desktop) (tool_name : string)
    (tool : Registry.Tool Desktop) (desktop : option Desktop) (step : Z)
    (kwargs : Parameters) (service : HITLApprovalService.t) (w : World) :
  Registry.tools_registry self !! tool_name = Some tool →
  Registry.hitl_service self = Some service →
  HITLApprovalService.backend service = AUTO_APPROVE →
  Registry.execute self tool_name desktop step kwargs w =
    let '(r, w', evs) := Registry.run_tool tool desktop kwargs w in
    (r, w',
     [TimeTime;
      Log INFO "Tool execution approved by {approval_response.approved_by}: {tool_name}"
        [AStr "system"; AStr tool_name]] ++ evs).
Proof.
  intros Hfound Hservice Hauto.
  rewrite (execute_with_service Desktop self tool_name tool desktop step kwargs Hfound
             service w Hservice).
  by rewrite request_approval_auto.
Qed.

Lemma execute_auto_approved_witness :
  Registry.execute (Sample.shell_registry (Some (Sample.auto_service None))) "shell_tool"
    None 3 [("command", "dir")] (Sample.world [CtrlC]) =
    (Py.Return {| Registry.is_success := true; Registry.content := Some "done";
                  Registry.error := None |},
     Sample.world [CtrlC],
     [TimeTime;
      Log INFO "Tool execution approved by {approval_response.approved_by}: {tool_name}"
        [AStr "system"; AStr "shell_tool"];
      ModelValidate "shell_tool" [("command", "dir")];
      ToolInvoke "shell_tool" [("command", "dir")]]).
Proof.
  rewrite (execute_auto_approved unit (Sample.shell_registry (Some (Sample.auto_service None)))
             "shell_tool" Sample.shell_tool None 3 [("command", "dir")]
             (Sample.auto_service None) (Sample.world [CtrlC]));
    reflexivity.
Defined.

(** ** The Slack handlers *)

Section Handlers.

Import SlackHandlers.

Ltac run_handler :=
  unfold _execute_task, say, ack, print, invoke, auth_test, with_lock,
    try_except_Exception, effect;
  unfold mbind, mret, H_bind, H_ret.

(** [_execute_task], case by case on what the agent does. *)
Lemma execute_task_cases (task user : string) (s : Surroundings) :
  _execute_task task user s =
    match agent_invoke s task with
    | Py.Return result =>
        (Py.Return tt, set_locked s false,
         [Say (executing task); LockAcquire; AgentInvoke task; Say (completed result);
          LockRelease])
    | Py.Raise e =>
        if Py.is_Exception e then
          (Py.Return tt, set_locked s false,
           [Say (executing task); LockAcquire; AgentInvoke task; LockRelease;
            Say (error_msg e);
            Print ("Error executing task for user " +:+ user +:+ ":");
            TracebackPrintExc])
        else
          (Py.Raise e, set_locked s false,
           [Say (executing task); LockAcquire; AgentInvoke task; LockRelease])
    end.
Proof.
  run_handler. cbn.
  destruct (agent_invoke s task) as [result|e]; cbn; [done|].
  by destruct (Py.is_Exception e).
Qed.

End Handlers.

(** X20: a task sent to the agent is first announced, then run once under the
    lock, and the lock is released however the agent ends; a failure of the
    agent of class [Exception] is not raised but reported to the user, after the
    lock is released. *)
Theorem execute_task_releases_and_reports
    (task user : string) (s : SlackHandlers.Surroundings) :
  ∃ r s' effs,
    SlackHandlers._execute_task task user s =
      (r, s', SlackHandlers.Say (SlackHandlers.executing task) :: effs) ∧
    SlackHandlers.locked s' = false ∧
    filter (λ eff, SlackHandlers.touches_agent eff = true) effs =
      [SlackHandlers.LockAcquire; SlackHandlers.AgentInvoke task; SlackHandlers.LockRelease] ∧
    (∀ e, r = Py.Raise e →
          Py.is_Exception e = false ∧ SlackHandlers.agent_invoke s task = Py.Raise e) ∧
    (∀ e, SlackHandlers.agent_invoke s task = Py.Raise e → Py.is_Exception e = true →
          r = Py.Return tt ∧
          ∃ before after,
            effs = before ++ SlackHandlers.LockRelease
                   :: SlackHandlers.Say (SlackHandlers.error_msg e) :: after).
Proof.
  rewrite execute_task_cases.
  destruct (SlackHandlers.agent_invoke s task) as [result|e] eqn:Hagent.
  - eexists _, _, _. split; [done|]. split; [done|]. split; [done|].
    split; [done|]. done.
  - destruct (Py.is_Exception e) eqn:Hexc.
    + eexists _, _, _. split; [done|]. split; [done|]. split; [done|].
      split; [done|]. intros e' [= <-] _. split; [done|].
      by exists [SlackHandlers.LockAcquire; SlackHandlers.AgentInvoke task],
           [SlackHandlers.Print ("Error executing task for user " +:+ user +:+ ":");
            SlackHandlers.TracebackPrintExc].
    + eexists _, _, _. split; [done|]. split; [done|]. split; [done|].
      split; [by intros e' [= <-]|]. intros e' [= <-] Hyes. congruence.
Qed.

(** X21: a message that comes from a bot, that is not a direct message, or whose
    text is blank is ignored: nothing is said, the lock is not touched and the
    agent is not invoked; every other message is handed to the agent with its
    text stripped. *)
Theorem handle_message_filters (event : SlackHandlers.Payload) (s : SlackHandlers.Surroundings) :
  let ignored :=
    Py.truthy (event !! "bot_id")
    || negb (bool_decide (event !! "channel_type" = Some "im"))
    || String.eqb (Py.strip (SlackHandlers.get event "text" "")) "" in
  if ignored then SlackHandlers.handle_message event s = (Py.Return tt, s, [])
  else
    SlackHandlers.handle_message event s =
      SlackHandlers._execute_task (Py.strip (SlackHandlers.get event "text" ""))
        (SlackHandlers.get event "user" "unknown") s ∧
    (SlackHandlers.handle_message event s).2 ≠ [].
Proof.
  unfold SlackHandlers.handle_message.
  destruct (Py.truthy (event !! "bot_id")); [done|].
  destruct (bool_decide (event !! "channel_type" = Some "im")); [|done].
  cbn [orb negb].
  destruct (String.eqb (Py.strip (SlackHandlers.get event "text" "")) ""); [done|].
  split; [done|]. rewrite execute_task_cases. by repeat case_match.
Qed.

(** X22: the /windows command is acknowledged before anything else; with a
    blank text it answers the usage line and neither takes the lock nor invokes
    the agent. *)
Theorem windows_command_acks_first
    (command : SlackHandlers.Payload) (s : SlackHandlers.Surroundings) :
  head (SlackHandlers.handle_windows_command command s).2 = Some SlackHandlers.Ack ∧
  (Py.strip (SlackHandlers.get command "text" "") = "" →
   SlackHandlers.handle_windows_command command s =
     (Py.Return tt, s, [SlackHandlers.Ack; SlackHandlers.Say SlackHandlers.usage])).
Proof.
  unfold SlackHandlers.handle_windows_command.
  unfold SlackHandlers.say, SlackHandlers.ack, SlackHandlers.print, SlackHandlers.invoke,
    SlackHandlers.with_lock, SlackHandlers.try_except_Exception, SlackHandlers.effect.
  unfold mbind, mret, SlackHandlers.H_bind, SlackHandlers.H_ret. cbn.
  destruct (String.eqb_spec (Py.strip (SlackHandlers.get command "text" "")) "") as [->|Hne].
  - by split.
  - split; [|done].
    destruct (SlackHandlers.agent_invoke s _) as [result|e]; cbn; [done|].
    by destruct (Py.is_Exception e).
Qed.

Lemma windows_command_acks_first_witness :
  SlackHandlers.handle_windows_command {[ "text" := "   "; "user_id" := "U7" ]}
    (idle_agent (Py.Raise (Py.RuntimeError "boom"))) =
    (Py.Return tt, idle_agent (Py.Raise (Py.RuntimeError "boom")),
     [SlackHandlers.Ack; SlackHandlers.Say SlackHandlers.usage]).
Proof.
  apply (windows_command_acks_first {[ "text" := "   "; "user_id" := "U7" ]}
           (idle_agent (Py.Raise (Py.RuntimeError "boom")))).
  by vm_compute.
Defined.

Lemma prefix_append (a b : string) : String.prefix a (a +:+ b) = true.
Proof.
  induction a as [|c a IH]; [by destruct b|].
  change (String c a +:+ b) with (String c (a +:+ b)).
  cbn [String.prefix]. by destruct (ascii_dec c c).
Qed.

Lemma remove_go_skip (old x s : string) :
  SlackHandlers.remove_go old (String.length x) (x +:+ s) = SlackHandlers.remove_go old 0 s.
Proof.
  induction x as [|c x IH]; [done|].
  change (String c x +:+ s) with (String c (x +:+ s)). exact IH.
Qed.

Lemma remove_leading (c : ascii) (old s : string) :
  SlackHandlers.remove (String c old) (String c old +:+ s) =
  SlackHandlers.remove (String c old) s.
Proof.
  unfold SlackHandlers.remove.
  change (String c old +:+ s) with (String c (old +:+ s)).
  cbn [SlackHandlers.remove_go].
  change (String c (old +:+ s)) with (String c old +:+ s).
  rewrite prefix_append.
  change (String.length (String c old) - 1)%nat with (String.length old - 0)%nat.
  rewrite Nat.sub_0_r. apply remove_go_skip.
Qed.

Lemma remove_blank (c : ascii) (old s : string) :
  Py.is_space c = false → blank s = true →
  SlackHandlers.remove (String c old) s = s.
Proof.
  intros Hc. unfold SlackHandlers.remove.
  induction s as [|d s IH]; [done|].
  cbn [blank]. intros [Hd Hs]%andb_true_iff.
  cbn [SlackHandlers.remove_go String.prefix].
  destruct (ascii_dec c d) as [->|_]; [congruence|]. by rewrite IH.
Qed.

Lemma strip_blank (s : string) : blank s = true → Py.strip s = "".
Proof.
  unfold Py.strip. induction s as [|c s IH]; [done|].
  cbn [blank Py.lstrip]. intros [-> Hs]%andb_true_iff. by apply IH.
Qed.

(** X23: a mention that carries nothing but the bot's own mention and white
    space is answered with the greeting: the lock is not taken and the agent is
    not invoked; and when the bot's id cannot be obtained, the handler raises
    before it says anything. *)
Theorem handle_mention_bare
    (event : SlackHandlers.Payload) (s : SlackHandlers.Surroundings) :
  (∀ bot tail,
     SlackHandlers.auth_test_user_id s = Py.Return bot →
     event !! "text" = Some (("<@" +:+ bot +:+ ">") +:+ tail) →
     blank tail = true →
     SlackHandlers.handle_mention event s =
       (Py.Return tt, s, [SlackHandlers.AuthTest; SlackHandlers.Say SlackHandlers.greeting])) ∧
  (∀ e,
     SlackHandlers.auth_test_user_id s = Py.Raise e →
     SlackHandlers.handle_mention event s = (Py.Raise e, s, [SlackHandlers.AuthTest])).
Proof.
  unfold SlackHandlers.handle_mention, SlackHandlers.auth_test, SlackHandlers.say,
    SlackHandlers.effect.
  unfold mbind, mret, SlackHandlers.H_bind, SlackHandlers.H_ret.
  split.
  - intros bot tail -> Htext Hblank. unfold SlackHandlers.get. rewrite Htext.
    cbn [default]. cbv zeta.
    change ("<@" +:+ bot +:+ ">") with (String "<" ("@" +:+ bot +:+ ">")).
    unfold id. by rewrite remove_leading, remove_blank, strip_blank.
  - by intros e ->.
Qed.

Lemma handle_mention_bare_witness :
  SlackHandlers.handle_mention {[ "text" := "<@U042>  "; "user" := "U7" ]}
    (idle_agent (Py.Raise (Py.RuntimeError "boom"))) =
    (Py.Return tt, idle_agent (Py.Raise (Py.RuntimeError "boom")),
     [SlackHandlers.AuthTest; SlackHandlers.Say SlackHandlers.greeting]).
Proof.
  destruct (handle_mention_bare {[ "text" := "<@U042>  "; "user" := "U7" ]}
              (idle_agent (Py.Raise (Py.RuntimeError "boom")))) as [Hbare _].
  apply (Hbare "U042" "  "); by vm_compute.
Defined.

(** ** Starting the Slack agent *)

(** X24: [get_llm] builds the LLM of the first variable, in the order
    ANTHROPIC, OPENAI, GOOGLE, MISTRAL, GROQ, OLLAMA, that is set to a non-empty
    value, and gives it that value; it exits, after printing the instructions,
    exactly when none of the six is set to a non-empty value. *)
Theorem get_llm_first_set (environ : Environ) :
  SlackBot.get_llm environ =
    match SlackBot.first_set environ SlackBot.providers with
    | Some llm => (Py.Return llm, [])
    | None => (Py.Raise Py.SystemExit, SlackBot.no_key_message)
    end.
Proof.
  unfold SlackBot.get_llm, SlackBot.providers, SlackBot.first_set, getenv, Py.truthy.
  repeat (destruct (environ !! _) as [?value|]; cbn [negb default];
          [destruct (String.eqb _ ""); cbn [negb]; [|done] |]).
  all: done.
Qed.

(** X25: the Slack agent takes each token from its argument when that is not
    empty and from the environment otherwise; when the bot token is missing it
    raises [ValueError] naming SLACK_BOT_TOKEN, when only the app token is
    missing, naming SLACK_APP_TOKEN, in both cases before the Slack app or the
    agent is built; with both tokens and a platform that builds, it registers
    the five handlers. *)
Theorem slack_agent_init_tokens
    (environ : Environ) (platform : SlackAgent.Platform) (bot_arg app_arg : option string) :
  let bot := py_or bot_arg (environ !! "SLACK_BOT_TOKEN") in
  let app := py_or app_arg (environ !! "SLACK_APP_TOKEN") in
  (Py.truthy bot = false →
   SlackAgent.__init__ environ platform bot_arg app_arg =
     (Py.Raise (Py.ValueError
        "SLACK_BOT_TOKEN is required. Set it via environment variable or constructor."), [])) ∧
  (Py.truthy bot = true → Py.truthy app = false →
   SlackAgent.__init__ environ platform bot_arg app_arg =
     (Py.Raise (Py.ValueError
        "SLACK_APP_TOKEN is required. Set it via environment variable or constructor."), [])) ∧
  (∀ b a, bot = Some b → app = Some a → Py.truthy bot = true → Py.truthy app = true →
   SlackAgent.new_app platform b = Py.Return tt →
   SlackAgent.new_agent platform = Py.Return tt →
   SlackAgent.__init__ environ platform bot_arg app_arg =
     (Py.Return {| SlackAgent.slack_bot_token := b; SlackAgent.slack_app_token := a |},
      [SlackAgent.NewApp b; SlackAgent.NewAgent; SlackAgent.NewLock;
       SlackAgent.NewMessageHandler; SlackAgent.NewCommandHandler;
       SlackAgent.Register (SlackAgent.OnEvent "app_mention" SlackAgent.handle_mention);
       SlackAgent.Register (SlackAgent.OnEvent "message" SlackAgent.handle_message);
       SlackAgent.Register (SlackAgent.OnCommand "/windows" SlackAgent.handle_windows_command);
       SlackAgent.Register (SlackAgent.OnCommand "/windows-help" SlackAgent.handle_help_command);
       SlackAgent.Register
         (SlackAgent.OnCommand "/windows-status" SlackAgent.handle_status_command)])).
Proof.
  intros bot app. unfold SlackAgent.__init__, getenv. fold bot app.
  split; [by intros ->|]. split; [by intros -> ->|].
  intros b a Hb Ha -> ->. rewrite Hb, Ha. cbn. by intros -> ->.
Qed.

Lemma slack_agent_init_tokens_witness :
  SlackAgent.__init__ {[ "SLACK_BOT_TOKEN" := "xoxb-env"; "SLACK_APP_TOKEN" := "xapp-env" ]}
    working_platform (Some "") (Some "xapp-arg") =
    (Py.Return {| SlackAgent.slack_bot_token := "xoxb-env";
                  SlackAgent.slack_app_token := "xapp-arg" |},
     [SlackAgent.NewApp "xoxb-env"; SlackAgent.NewAgent; SlackAgent.NewLock;
      SlackAgent.NewMessageHandler; SlackAgent.NewCommandHandler]
     ++ SlackAgent._register_handlers).
Proof.
  destruct (slack_agent_init_tokens
              {[ "SLACK_BOT_TOKEN" := "xoxb-env"; "SLACK_APP_TOKEN" := "xapp-env" ]}
              working_platform (Some "") (Some "xapp-arg")) as (_ & _ & Hok).
  apply (Hok "xoxb-env" "xapp-arg"); reflexivity.
Defined.
